(** * flag-service: a shallow embedding of [app.py]

    The service is a Flask application with five handlers over one
    PostgreSQL table [flags], each wrapped by the [require_auth] decorator.
    The handlers are embedded as computations in a state-and-exception
    monad.  The state holds the handler's two local variables [conn] and
    [cur] (which Python may leave unbound), the table, the open
    transaction of the checked-out connection, the pool's count of
    checked-out connections and the log of calls made to the pool, the
    driver and the authentication service. *)

From Stdlib Require Import ZArith String Ascii Bool Lia Sorted DecimalString.
From stdpp Require Import base option list gmap strings.

#[local] Set Warnings "-register-all".
#[local] Open Scope string_scope.
#[local] Open Scope Z_scope.

(** ** JSON values, as [request.get_json()] hands them to a handler *)

Inductive json :=
| JNull
| JBool (b : bool)
| JNum (n : Z)
| JStr (s : string)
| JArr (l : list json)
| JObj (m : gmap string json).

(** ** Exceptions the handlers can meet *)

Inductive exn :=
| TypeError
| AttributeError
| KeyError
| UnboundLocalError
| RequestsTimeout        (* requests.exceptions.Timeout *)
| RequestException       (* any other requests.exceptions.RequestException *)
| UniqueViolation        (* psycopg.errors.UniqueViolation *)
| DataError              (* a parameter does not fit its column *)
| ProgrammingError       (* a statement the server cannot run *)
| OperationalError       (* the connection or the server failed *)
| PoolTimeout            (* psycopg_pool could not hand out a connection *)
| HTTPException (status : Z).  (* werkzeug.exceptions.HTTPException *)

Inductive outcome (A : Type) :=
| Returns (a : A)
| Raises (e : exn).
Arguments Returns {A} a.
Arguments Raises {A} e.

(** ** Python's operations on the request body *)

Module Py.

(** [bool(v)]: [None], [False], [0], [""], [[]] and [{}] are falsy. *)
Definition truthy (v : json) : bool :=
  match v with
  | JNull => false
  | JBool b => b
  | JNum n => negb (n =? 0)
  | JStr s => negb (String.eqb s "")
  | JArr l => match l with [] => false | _ => true end
  | JObj m => negb (bool_decide (m = ∅))
  end.

Definition is_str (k : string) (v : json) : bool :=
  match v with JStr s => String.eqb s k | _ => false end.

Definition substring_of (k s : string) : bool :=
  match String.index 0 k s with Some _ => true | None => false end.

(** [k in v]: a key test on a dict, membership on a list, a substring
    test on a string; the other values are not iterable. *)
Definition contains (k : string) (v : json) : outcome bool :=
  match v with
  | JObj m => Returns (bool_decide (is_Some (m !! k)))
  | JArr l => Returns (existsb (is_str k) l)
  | JStr s => Returns (substring_of k s)
  | JNull | JBool _ | JNum _ => Raises TypeError
  end.

(** [v[k]] with a string [k]. *)
Definition getitem (v : json) (k : string) : outcome json :=
  match v with
  | JObj m => match m !! k with Some x => Returns x | None => Raises KeyError end
  | _ => Raises TypeError
  end.

(** [v.get(k, d)]: only a dict has the method. *)
Definition get (v : json) (k : string) (d : json) : outcome json :=
  match v with
  | JObj m => Returns (default d (m !! k))
  | _ => Raises AttributeError
  end.

End Py.

(** ** The persisted entity *)

Record flag := Flag {
  name : string;
  description : string;
  is_enabled : bool;
  created_at : Z;
  updated_at : Z
}.

(** ** The SQL the handlers send

    The handlers pass SQL text to [cur.execute]; the update handler
    assembles its text at run time.  The model parses that text into a
    statement and runs the statement on the rows. *)

Module Sql.

Inductive expr := EParam | ENow.

Inductive stmt :=
| SInsert
| SSelectAll
| SSelectByName
| SUpdate (sets : list (string * expr))
| SDelete.

Definition insert_text : string :=
  "INSERT INTO flags (name, description, is_enabled, created_at, updated_at) "
  +:+ "VALUES (%s, %s, %s, NOW(), NOW()) RETURNING *".
Definition select_all_text : string := "SELECT * FROM flags ORDER BY name".
Definition select_by_name_text : string := "SELECT * FROM flags WHERE name = %s".
Definition delete_text : string := "DELETE FROM flags WHERE name = %s".
Definition update_head : string := "UPDATE flags SET ".
Definition update_tail : string := " WHERE name = %s RETURNING *".

Fixpoint strip_prefix (p s : string) : option string :=
  match p with
  | EmptyString => Some s
  | String a p' =>
      match s with
      | EmptyString => None
      | String b s' => if Ascii.eqb a b then strip_prefix p' s' else None
      end
  end.

(** The text before a final [tl], when [s] ends with [tl]. *)
Definition strip_suffix (tl s : string) : option string :=
  match String.index 0 tl s with
  | Some i =>
      if String.eqb (String.substring i (String.length s - i) s) tl
      then Some (String.substring 0 i s) else None
  | None => None
  end.

(** Split a SET list at each comma followed by a space. *)
Fixpoint split_commas (s : string) : list string :=
  match s with
  | EmptyString => [EmptyString]
  | String c rest =>
      match Ascii.eqb c ","%char, rest with
      | true, String d rest' =>
          if Ascii.eqb d " "%char then EmptyString :: split_commas rest'
          else match split_commas rest with
               | [] => [String c EmptyString]
               | x :: xs => String c x :: xs
               end
      | _, _ =>
          match split_commas rest with
          | [] => [String c EmptyString]
          | x :: xs => String c x :: xs
          end
      end
  end.

(** One assignment [col = %s] or [col = NOW()]. *)
Definition parse_assign (item : string) : option (string * expr) :=
  match String.index 0 " = " item with
  | Some i =>
      let col := String.substring 0 i item in
      let rhs := String.substring (i + 3) (String.length item - (i + 3)) item in
      if String.eqb rhs "%s" then Some (col, EParam)
      else if String.eqb rhs "NOW()" then Some (col, ENow)
      else None
  | None => None
  end.

Fixpoint parse_assigns (items : list string) : option (list (string * expr)) :=
  match items with
  | [] => Some []
  | i :: rest =>
      match parse_assign i, parse_assigns rest with
      | Some a, Some l => Some (a :: l)
      | _, _ => None
      end
  end.

Definition parse (q : string) : option stmt :=
  if String.eqb q insert_text then Some SInsert
  else if String.eqb q select_all_text then Some SSelectAll
  else if String.eqb q select_by_name_text then Some SSelectByName
  else if String.eqb q delete_text then Some SDelete
  else
    match strip_prefix update_head q with
    | Some rest =>
        match strip_suffix update_tail rest with
        | Some sets =>
            match parse_assigns (split_commas sets) with
            | Some (a :: l) => Some (SUpdate (a :: l))
            | _ => None
            end
        | None => None
        end
    | None => None
    end.

(** The columns a statement assigns. *)
Definition assigned_columns (st : stmt) : list string :=
  match st with
  | SUpdate sets => map fst sets
  | SInsert => ["name"; "description"; "is_enabled"; "created_at"; "updated_at"]
  | _ => []
  end.

(** *** Running a statement *)

(** A value on the right of an assignment: a bound parameter or the
    transaction's [NOW()]. *)
Inductive sqlval := VParam (v : json) | VTime (t : Z).

(** Modelled from the spec: the schema of [flags] is not part of the
    source; the data model gives [name] and [description] as strings,
    [is_enabled] as a boolean and the two timestamps, and every row has
    the five of them (the columns are NOT NULL).

    A string sent for a text column and a boolean sent for a boolean
    column are stored as they are.  What the database makes of a
    parameter of another JSON type is its own business and no part of the
    source (PostgreSQL stores the number 5 sent for a text column as the
    text 5, and reads the string yes sent for a boolean column as true):
    [to_text] and [to_bool] give the value the database stores for such a
    parameter, or [None] when it refuses the parameter.  The order of
    ORDER BY name is that of the collation of the database, [name_le]. *)
Record engine := Engine {
  to_text : json -> option string;
  to_bool : json -> option bool;
  name_le : string -> string -> bool
}.

Definition as_text (db : engine) (v : sqlval) : option string :=
  match v with
  | VParam (JStr s) => Some s
  | VParam p => to_text db p
  | VTime _ => None
  end.
Definition as_bool (db : engine) (v : sqlval) : option bool :=
  match v with
  | VParam (JBool b) => Some b
  | VParam p => to_bool db p
  | VTime _ => None
  end.
Definition as_time (v : sqlval) : option Z :=
  match v with VTime t => Some t | _ => None end.

Definition set_name (s : string) (r : flag) : flag :=
  Flag s (description r) (is_enabled r) (created_at r) (updated_at r).
Definition set_description (s : string) (r : flag) : flag :=
  Flag (name r) s (is_enabled r) (created_at r) (updated_at r).
Definition set_is_enabled (b : bool) (r : flag) : flag :=
  Flag (name r) (description r) b (created_at r) (updated_at r).
Definition set_created_at (t : Z) (r : flag) : flag :=
  Flag (name r) (description r) (is_enabled r) t (updated_at r).
Definition set_updated_at (t : Z) (r : flag) : flag :=
  Flag (name r) (description r) (is_enabled r) (created_at r) t.

(** What [col = v] does to a row; a value the database refuses for the
    column is a [DataError], an unknown column an error of the statement. *)
Definition assign (db : engine) (col : string) (v : sqlval) : exn + (flag -> flag) :=
  let typed {A} (conv : option A) (set : A -> flag -> flag) : exn + (flag -> flag) :=
    match conv with Some a => inr (set a) | None => inl DataError end in
  if String.eqb col "name" then typed (as_text db v) set_name
  else if String.eqb col "description" then typed (as_text db v) set_description
  else if String.eqb col "is_enabled" then typed (as_bool db v) set_is_enabled
  else if String.eqb col "created_at" then typed (as_time v) set_created_at
  else if String.eqb col "updated_at" then typed (as_time v) set_updated_at
  else inl ProgrammingError.

(** Bind the parameters to the [%s] of a SET list, left to right; the
    parameters left over are returned for the WHERE clause. *)
Fixpoint bind_sets (db : engine) (sets : list (string * expr)) (params : list json)
    (now : Z) : exn + ((flag -> flag) * list json) :=
  match sets with
  | [] => inr (λ r, r, params)
  | (col, e) :: rest =>
      let bound :=
        match e, params with
        | ENow, _ => Some (VTime now, params)
        | EParam, p :: ps => Some (VParam p, ps)
        | EParam, [] => None
        end in
      match bound with
      | None => inl ProgrammingError
      | Some (v, ps) =>
          match assign db col v, bind_sets db rest ps now with
          | inl e', _ => inl e'
          | _, inl e' => inl e'
          | inr f, inr (g, ps') => inr (λ r, g (f r), ps')
          end
      end
  end.

Definition has_name (n : string) (r : flag) : bool := String.eqb (name r) n.

(** Rows in ascending order of [name]. *)
Fixpoint insert_sorted (db : engine) (r : flag) (l : list flag) : list flag :=
  match l with
  | [] => [r]
  | x :: xs => if name_le db (name r) (name x) then r :: l
               else x :: insert_sorted db r xs
  end.
Definition order_by_name (db : engine) (l : list flag) : list flag :=
  foldr (insert_sorted db) [] l.

(** The result of a statement: the rows after it, the rows it returns
    and its row count. *)
Record result := Result {
  rows_after : list flag;
  returned : list flag;
  rowcount : Z
}.

(** Modelled from the spec: [name] is unique across all rows, so an
    INSERT of a name that is there raises [UniqueViolation]. *)
Definition run (db : engine) (st : stmt) (params : list json) (now : Z)
    (t : list flag) : exn + result :=
  match st with
  | SInsert =>
      match params with
      | [n; d; e] =>
          match as_text db (VParam n), as_text db (VParam d), as_bool db (VParam e) with
          | Some n', Some d', Some e' =>
              if existsb (has_name n') t then inl UniqueViolation
              else let r := Flag n' d' e' now now in
                   inr (Result (t ++ [r]) [r] 1)
          | _, _, _ => inl DataError
          end
      | _ => inl ProgrammingError
      end
  | SSelectAll =>
      match params with
      | [] => let l := order_by_name db t in
              inr (Result t l (Z.of_nat (length l)))
      | _ => inl ProgrammingError
      end
  | SSelectByName =>
      match params with
      | [n] =>
          match as_text db (VParam n) with
          | Some n' => let l := filter (λ r, has_name n' r = true) t in
                       inr (Result t l (Z.of_nat (length l)))
          | None => inl DataError
          end
      | _ => inl ProgrammingError
      end
  | SUpdate sets =>
      match bind_sets db sets params now with
      | inl e => inl e
      | inr (f, [n]) =>
          match as_text db (VParam n) with
          | Some n' =>
              let hit := filter (λ r, has_name n' r = true) t in
              inr (Result (map (λ r, if has_name n' r then f r else r) t)
                          (map f hit) (Z.of_nat (length hit)))
          | None => inl DataError
          end
      | inr _ => inl ProgrammingError
      end
  | SDelete =>
      match params with
      | [n] =>
          match as_text db (VParam n) with
          | Some n' =>
              let hit := filter (λ r, has_name n' r = true) t in
              inr (Result (filter (λ r, has_name n' r = false) t) []
                          (Z.of_nat (length hit)))
          | None => inl DataError
          end
      | _ => inl ProgrammingError
      end
  end.

End Sql.

(** ** The state a request runs in *)

(** A local variable of a handler: not yet assigned, [None], or an object. *)
Inductive local := Unbound | PyNone | Bound.

(** The calls to the pool and the driver that can fail on their own. *)
Inductive dbcall := CGetconn | CCursor | CExecute | CFetch | CCommit | CRollback.

(** What [requests.get] does: a response with a status, a timeout, or
    another transport failure. *)
Inductive http_outcome := Responded (status : Z) | TimedOut | Failed.

(** The surroundings of the service: its configuration, the external
    authentication service, the faults of the database and what the
    database makes of the parameters it is sent. *)
Record env := Env {
  AUTH_SERVICE_URL : string;
  http_get : string -> string -> Z -> http_outcome;
  db_fault : dbcall -> bool;
  db_engine : Sql.engine
}.

Inductive event :=
| EvHttpGet (url : string) (authorization : string) (timeout : Z)
| EvGetconn
| EvCursor
| EvExecute (query : string) (params : list json)
| EvFetch
| EvCommit
| EvRollback
| EvCursorClose
| EvPutconn.

Record state := State {
  conn : local;                   (* the handler's local [conn] *)
  cur : local;                    (* the handler's local [cur] *)
  table : list flag;              (* the committed rows of [flags] *)
  pending : option (list flag);   (* the rows as the open transaction sees them *)
  in_use : Z;                     (* connections checked out of the pool *)
  clock : Z;                      (* what NOW() gives *)
  cur_rows : list flag;           (* rows the cursor has left to fetch *)
  cur_rowcount : Z;               (* [cur.rowcount] *)
  trace : list event              (* calls made, the latest first *)
}.

Definition set_conn (v : local) (s : state) : state :=
  State v (cur s) (table s) (pending s) (in_use s) (clock s)
        (cur_rows s) (cur_rowcount s) (trace s).
Definition set_cur (v : local) (s : state) : state :=
  State (conn s) v (table s) (pending s) (in_use s) (clock s)
        (cur_rows s) (cur_rowcount s) (trace s).
Definition set_table (t : list flag) (s : state) : state :=
  State (conn s) (cur s) t (pending s) (in_use s) (clock s)
        (cur_rows s) (cur_rowcount s) (trace s).
Definition set_pending (p : option (list flag)) (s : state) : state :=
  State (conn s) (cur s) (table s) p (in_use s) (clock s)
        (cur_rows s) (cur_rowcount s) (trace s).
Definition set_in_use (n : Z) (s : state) : state :=
  State (conn s) (cur s) (table s) (pending s) n (clock s)
        (cur_rows s) (cur_rowcount s) (trace s).
Definition set_cursor_result (l : list flag) (n : Z) (s : state) : state :=
  State (conn s) (cur s) (table s) (pending s) (in_use s) (clock s)
        l n (trace s).
Definition log (e : event) (s : state) : state :=
  State (conn s) (cur s) (table s) (pending s) (in_use s) (clock s)
        (cur_rows s) (cur_rowcount s) (e :: trace s).

(** The rows the checked-out connection sees. *)
Definition view (s : state) : list flag := default (table s) (pending s).

(** The calls made between [s] and [s'], in the order they were made. *)
Definition calls (s s' : state) (l : list event) : Prop :=
  trace s' = (rev l ++ trace s)%list.

Definition is_db_event (e : event) : bool :=
  match e with EvHttpGet _ _ _ => false | _ => true end.

(** The calls logged that are equal to [e] up to their arguments. *)
Definition is_getconn (e : event) : bool := match e with EvGetconn => true | _ => false end.
Definition is_putconn (e : event) : bool := match e with EvPutconn => true | _ => false end.
Definition is_rollback (e : event) : bool := match e with EvRollback => true | _ => false end.
Definition is_commit (e : event) : bool := match e with EvCommit => true | _ => false end.
Definition is_http (e : event) : bool := match e with EvHttpGet _ _ _ => true | _ => false end.

(** ** The monad of handlers: state and exceptions *)

Definition M (A : Type) : Type := state -> outcome A * state.

Definition ret {A} (a : A) : M A := λ s, (Returns a, s).
Definition raise {A} (e : exn) : M A := λ s, (Raises e, s).
Definition bind {A B} (m : M A) (k : A -> M B) : M B :=
  λ s, match m s with
       | (Returns a, s') => k a s'
       | (Raises e, s') => (Raises e, s')
       end.
Definition lift {A} (o : outcome A) : M A := λ s, (o, s).
Definition modify (f : state -> state) : M unit := λ s, (Returns tt, f s).
Definition gets {A} (f : state -> A) : M A := λ s, (Returns (f s), s).

Notation "x <- m ;; k" := (bind m (λ x, k))
  (at level 20, m at level 99, k at level 200, only parsing).
Notation "m ;; k" := (bind m (λ _, k))
  (at level 100, k at level 200, right associativity, only parsing).

(** [try: body / except ...: handler / finally: fin].  [handler e] is
    [None] when no except clause matches [e].  The finally block runs on
    every path, and an exception it raises replaces the pending result. *)
Definition try_ {A} (body : M A) (handler : exn -> option (M A)) (fin : M unit) : M A :=
  λ s,
    let '(o1, s1) :=
      match body s with
      | (Returns a, s') => (Returns a, s')
      | (Raises e, s') =>
          match handler e with
          | Some h => h s'
          | None => (Raises e, s')
          end
      end in
    match fin s1 with
    | (Returns _, s2) => (o1, s2)
    | (Raises e, s2) => (Raises e, s2)
    end.

Definition when (b : bool) (m : M unit) : M unit := if b then m else ret tt.

(** Calling a handler: its locals start unbound and die with its frame. *)
Definition call {A} (h : M A) : M A :=
  λ s, match h (set_cur Unbound (set_conn Unbound s)) with
       | (o, s') => (o, set_cur (cur s) (set_conn (conn s) s'))
       end.

(** *** Local variables *)

(** Reading a local to call a method on it. *)
Definition load (v : state -> local) : M unit :=
  λ s, match v s with
       | Unbound => (Raises UnboundLocalError, s)
       | PyNone => (Raises AttributeError, s)
       | Bound => (Returns tt, s)
       end.

(** [if v:] on a local. *)
Definition test (v : state -> local) : M bool :=
  λ s, match v s with
       | Unbound => (Raises UnboundLocalError, s)
       | PyNone => (Returns false, s)
       | Bound => (Returns true, s)
       end.

(** *** The pool and the driver *)

Section Driver.
Variable E : env.

Definition fails (c : dbcall) (e : exn) : M unit :=
  if db_fault E c then raise e else ret tt.

(** [pool.getconn()]: a connection with no transaction open. *)
Definition pool_getconn : M unit :=
  modify (log EvGetconn) ;;
  fails CGetconn PoolTimeout ;;
  modify (λ s, set_pending None (set_in_use (in_use s + 1) s)).

(** [pool.putconn(conn)]: the pool takes the connection back and
    discards a transaction left open on it. *)
Definition pool_putconn : M unit :=
  load conn ;;
  modify (log EvPutconn) ;;
  modify (λ s, set_pending None (set_in_use (in_use s - 1) s)).

(** [conn.cursor(...)] *)
Definition conn_cursor : M unit :=
  load conn ;;
  modify (log EvCursor) ;;
  fails CCursor OperationalError ;;
  modify (set_cursor_result [] (-1)).

(** [cur.execute(query, params)]: the first statement on a connection
    opens its transaction. *)
Definition cur_execute (query : string) (params : list json) : M unit :=
  load cur ;;
  modify (log (EvExecute query params)) ;;
  modify (λ s, set_pending (Some (view s)) s) ;;
  fails CExecute OperationalError ;;
  match Sql.parse query with
  | None => raise ProgrammingError
  | Some st =>
      s <- gets id ;;
      match Sql.run (db_engine E) st params (clock s) (view s) with
      | inl e => raise e
      | inr r =>
          modify (λ s, set_cursor_result (Sql.returned r) (Sql.rowcount r)
                         (set_pending (Some (Sql.rows_after r)) s))
      end
  end.

(** [cur.fetchone()] *)
Definition cur_fetchone : M (option flag) :=
  load cur ;;
  modify (log EvFetch) ;;
  fails CFetch OperationalError ;;
  s <- gets id ;;
  modify (set_cursor_result (tail (cur_rows s)) (cur_rowcount s)) ;;
  ret (head (cur_rows s)).

(** [cur.fetchall()] *)
Definition cur_fetchall : M (list flag) :=
  load cur ;;
  modify (log EvFetch) ;;
  fails CFetch OperationalError ;;
  s <- gets id ;;
  modify (set_cursor_result [] (cur_rowcount s)) ;;
  ret (cur_rows s).

(** [cur.rowcount] *)
Definition cur_get_rowcount : M Z :=
  load cur ;;
  gets cur_rowcount.

(** [cur.close()] *)
Definition cur_close : M unit :=
  load cur ;;
  modify (log EvCursorClose).

(** [conn.commit()] *)
Definition conn_commit : M unit :=
  load conn ;;
  modify (log EvCommit) ;;
  fails CCommit OperationalError ;;
  modify (λ s, set_pending None (set_table (view s) s)).

(** [conn.rollback()]: it fails, as the other calls do, on a connection
    that is lost. *)
Definition conn_rollback : M unit :=
  load conn ;;
  modify (log EvRollback) ;;
  fails CRollback OperationalError ;;
  modify (set_pending None).

(** [requests.get(url, headers={"Authorization": h}, timeout=t)] *)
Definition requests_get (url h : string) (t : Z) : M Z :=
  modify (log (EvHttpGet url h t)) ;;
  match http_get E url h t with
  | Responded status => ret status
  | TimedOut => raise RequestsTimeout
  | Failed => raise RequestException
  end.

End Driver.

(** ** Requests and responses *)

(** The body of a request, as [request.get_json()] finds it: sent
    without a JSON content type, not a JSON document, or a JSON document
    (of which the document [null] is [JNull]). *)
Inductive sent := NoJson | BadJson | Json (v : json).
Coercion Json : json >-> sent.

(** What a handler reads of the request: the [Authorization] header as
    [request.headers.get] gives it, and the body. *)
Record request := Request {
  authorization : option string;
  body : sent
}.

(** The bodies the handlers build with [jsonify]. *)
Inductive payload :=
| JsonError (msg : string)                             (* {"error": msg} *)
| JsonErrorF (before : string) (v : json) (after : string) (* an f-string message *)
| JsonErrorDetails (msg : string) (e : exn)            (* with "details": str(e) *)
| JsonRow (r : option flag)
| JsonRows (l : list flag)
| JsonStatusOk                                         (* {"status": "ok"} *)
| NoBody.                                              (* the empty string *)

(** A body and a status; a handler that returns a body alone gets
    Flask's 200. *)
Definition response : Type := payload * Z.

(** [request.get_json()], as Flask 2.1 and later has it: a request
    without a JSON content type is aborted with 415 and a body that is
    not JSON with 400, both raised as an [HTTPException] that Flask turns
    into its own error page; only a JSON document is returned, and
    [None] is returned for the document [null] alone. *)
Definition get_json (req : request) : M json :=
  match body req with
  | NoJson => raise (HTTPException 415)
  | BadJson => raise (HTTPException 400)
  | Json v => ret v
  end.

(** [request.headers.get("Authorization")] is falsy when it is [None] or
    the empty string. *)
Definition header_truthy (h : option string) : bool :=
  match h with
  | None => false
  | Some v => negb (String.eqb v "")
  end.

(** ** The application *)

Section App.
Variable E : env.

(** *** [require_auth]

    The try block either returns a response or falls through to the
    call of the wrapped function. *)
Definition require_auth (req : request) (f : M response) : M response :=
  let auth_header := authorization req in
  if negb (header_truthy auth_header) then
    ret (JsonError "Authorization header obrigatório", 401)
  else
    early <- try_
      (status_code <- requests_get E (AUTH_SERVICE_URL E +:+ "/validate")
                                   (default "" auth_header) 3 ;;
       if negb (status_code =? 200) then
         ret (Some (JsonError "Chave de API inválida", 401))
       else ret None)
      (λ e, match e with
            | RequestsTimeout =>
                Some (ret (Some (JsonError "Serviço de autenticação indisponível (timeout)", 504)))
            | RequestException =>
                Some (ret (Some (JsonError "Serviço de autenticação indisponível", 503)))
            | _ => None
            end)
      (ret tt) ;;
    match early with
    | Some r => ret r
    | None => call f
    end.

Definition health : M response := ret (JsonStatusOk, 200).

(** The finally block shared by the five handlers. *)
Definition release : M unit :=
  c <- test cur ;;
  when c cur_close ;;
  c <- test conn ;;
  when c (pool_putconn).

Definition internal_error (e : exn) : response :=
  (JsonErrorDetails "Erro interno do servidor" e, 500).

(** *** POST /flags *)
Definition create_flag (req : request) : M response :=
  data <- get_json req ;;
  missing <- lift (if negb (Py.truthy data) then Returns true
                   else match Py.contains "name" data with
                        | Returns b => Returns (negb b)
                        | Raises e => Raises e
                        end) ;;
  if missing then ret (JsonError "'name' é obrigatório", 400)
  else
    name <- lift (Py.getitem data "name") ;;
    description <- lift (Py.get data "description" (JStr "")) ;;
    is_enabled <- lift (Py.get data "is_enabled" (JBool false)) ;;
    modify (set_conn PyNone) ;;
    modify (set_cur PyNone) ;;
    try_
      (pool_getconn E ;;
       modify (set_conn Bound) ;;
       conn_cursor E ;;
       modify (set_cur Bound) ;;
       cur_execute E Sql.insert_text [name; description; is_enabled] ;;
       new_flag <- cur_fetchone E ;;
       conn_commit E ;;
       ret (JsonRow new_flag, 201))
      (λ e, match e with
            | UniqueViolation =>
                Some (conn_rollback E ;;
                      ret (JsonErrorF "Flag '" name "' já existe", 409))
            | _ =>
                Some (c <- test conn ;;
                      when c (conn_rollback E) ;;
                      ret (internal_error e))
            end)
      release.

(** *** GET /flags *)
Definition get_flags : M response :=
  try_
    (pool_getconn E ;;
     modify (set_conn Bound) ;;
     conn_cursor E ;;
     modify (set_cur Bound) ;;
     cur_execute E Sql.select_all_text [] ;;
     flags <- cur_fetchall E ;;
     ret (JsonRows flags, 200))
    (λ e, Some (ret (internal_error e)))
    release.

(** *** GET /flags/<name> *)
Definition get_flag (name : string) : M response :=
  try_
    (pool_getconn E ;;
     modify (set_conn Bound) ;;
     conn_cursor E ;;
     modify (set_cur Bound) ;;
     cur_execute E Sql.select_by_name_text [JStr name] ;;
     flag <- cur_fetchone E ;;
     match flag with
     | None => ret (JsonError "Flag não encontrada", 404)
     | Some _ => ret (JsonRow flag, 200)
     end)
    (λ e, Some (ret (internal_error e)))
    release.

(** *** PUT /flags/<name> *)

(** The two [if k in data:] blocks that fill [fields] and [values]. *)
Definition add_field (data : json) (k : string) (assignment : string)
    (fv : list string * list json) : outcome (list string * list json) :=
  match Py.contains k data with
  | Raises e => Raises e
  | Returns false => Returns fv
  | Returns true =>
      match Py.getitem data k with
      | Raises e => Raises e
      | Returns v => Returns ((fv.1 ++ [assignment])%list, (fv.2 ++ [v])%list)
      end
  end.

Definition update_query (fields : list string) : string :=
  "UPDATE flags SET " +:+ String.concat ", " fields
    +:+ ", updated_at = NOW() WHERE name = %s RETURNING *".

Definition update_flag (req : request) (name : string) : M response :=
  data <- get_json req ;;
  if negb (Py.truthy data) then
    ret (JsonError "Corpo da requisição obrigatório", 400)
  else
    fv <- lift (add_field data "description" "description = %s" ([], [])) ;;
    fv <- lift (add_field data "is_enabled" "is_enabled = %s" fv) ;;
    let fields := fv.1 in
    let values := fv.2 in
    if bool_decide (fields = []) then
      ret (JsonError "Pelo menos um campo ('description', 'is_enabled') é obrigatório", 400)
    else
      let values := (values ++ [JStr name])%list in
      let query := update_query fields in
      try_
        (pool_getconn E ;;
         modify (set_conn Bound) ;;
         conn_cursor E ;;
         modify (set_cur Bound) ;;
         cur_execute E query values ;;
         n <- cur_get_rowcount ;;
         if n =? 0 then ret (JsonError "Flag não encontrada", 404)
         else
           updated_flag <- cur_fetchone E ;;
           conn_commit E ;;
           ret (JsonRow updated_flag, 200))
        (λ e, Some (conn_rollback E ;; ret (internal_error e)))
        release.

(** *** DELETE /flags/<name> *)
Definition delete_flag (name : string) : M response :=
  try_
    (pool_getconn E ;;
     modify (set_conn Bound) ;;
     conn_cursor E ;;
     modify (set_cur Bound) ;;
     cur_execute E Sql.delete_text [JStr name] ;;
     n <- cur_get_rowcount ;;
     if n =? 0 then ret (JsonError "Flag não encontrada", 404)
     else
       conn_commit E ;;
       ret (NoBody, 204))
    (λ e, Some (conn_rollback E ;; ret (internal_error e)))
    release.

(** *** The routes *)

Inductive route :=
| POST_flags
| GET_flags
| GET_flag (name : string)
| PUT_flag (name : string)
| DELETE_flag (name : string).

(** The handler of a route, before [require_auth] wraps it. *)
Definition handler (r : route) (req : request) : M response :=
  match r with
  | POST_flags => create_flag req
  | GET_flags => get_flags
  | GET_flag n => get_flag n
  | PUT_flag n => update_flag req n
  | DELETE_flag n => delete_flag n
  end.

Definition serve (r : route) (req : request) : M response :=
  require_auth req (handler r req).

End App.

(** ** Properties named by the specification *)

(** A present [Authorization] header is forwarded to the validation
    endpoint with a bound of 3. *)
Definition present_header_is_forwarded : Prop :=
  forall E req f s h,
    authorization req = Some h ->
    In (EvHttpGet (AUTH_SERVICE_URL E +:+ "/validate") h 3)
       (trace (require_auth E req f s).2).

(** The body has no field [k]: an object without the key, an array
    without the string among its elements, a string that does not contain
    it (the empty object, array and string among them); [null], a boolean
    and a number have no fields. *)
Definition lacks (k : string) (v : json) : Prop :=
  match v with
  | JObj m => m !! k = None
  | JArr l => existsb (Py.is_str k) l = false
  | JStr s => Py.substring_of k s = false
  | JNull | JBool _ | JNum _ => True
  end.

(** A number other than 0, or [true]: the bodies that are truthy and on
    which Python's [in] is not defined. *)
Definition truthy_scalar (v : json) : bool :=
  match v with
  | JBool b => b
  | JNum z => negb (z =? 0)
  | _ => false
  end.

(** A create request with an empty name is refused with 400 and leaves
    the state as it was. *)
Definition empty_name_is_rejected : Prop :=
  forall E h (m : gmap string json) s,
    m !! "name" = Some (JStr "") ->
    exists p, call (create_flag E (Request h (JObj m))) s = (Returns (p, 400), s).

(** The columns an update may assign. *)
Definition updatable_columns : list string :=
  ["description"; "is_enabled"; "updated_at"].

(** The text [q] is an UPDATE that assigns updatable columns only. *)
Definition only_updatable_columns_of (q : string) : Prop :=
  exists sets, Sql.parse q = Some (Sql.SUpdate sets)
               /\ forall c, In c (map fst sets) -> In c updatable_columns.

(** Every statement executed among [l] is such an UPDATE. *)
Definition only_updatable_columns (l : list event) : Prop :=
  forall q ps, In (EvExecute q ps) l -> only_updatable_columns_of q.

(** What a successful update may do to a row [r] of the table, giving
    [r']: [n] is the name in the URL, [m] the request body and [db] what
    the database makes of the parameters.  A supplied field takes the
    value the database stores for the supplied parameter: the string
    itself for a string sent as description, the boolean itself for a
    boolean sent as is_enabled. *)
Definition update_frame (db : Sql.engine) (m : gmap string json) (n : string)
    (now : Z) (r r' : flag) : Prop :=
  name r' = name r
  /\ created_at r' = created_at r
  /\ (m !! "description" = None -> description r' = description r)
  /\ (m !! "is_enabled" = None -> is_enabled r' = is_enabled r)
  /\ (name r <> n -> r' = r)
  /\ (name r = n ->
      updated_at r' = now
      /\ (forall v, m !! "description" = Some v ->
          Sql.as_text db (Sql.VParam v) = Some (description r'))
      /\ (forall v, m !! "is_enabled" = Some v ->
          Sql.as_bool db (Sql.VParam v) = Some (is_enabled r'))).

(** The SET items and the parameters the update handler collects from a
    body whose two recognized keys have these values. *)
Definition supplied (vd ve : option json) : list string * list json :=
  let fv := match vd with
            | Some v => (["description = %s"], [v])
            | None => ([], [])
            end in
  match ve with
  | Some v => ((fv.1 ++ ["is_enabled = %s"])%list, (fv.2 ++ [v])%list)
  | None => fv
  end.

(** How an except clause that rolls back ends: with the response it
    builds, or with the failure of the rollback. *)
Definition rolled_back (E : env) (resp : response) : outcome response :=
  if db_fault E CRollback then Raises OperationalError else Returns resp.

(** What a run [r] of the update handler from [s] comes to, once the
    body has passed the validation: [q] and [ps] are the statement and
    its parameters, and the cases follow the calls in the order the
    handler makes them. *)
Definition update_outcome (E : env) (q : string) (ps : list json)
    (s : state) (r : outcome response * state) : Prop :=
  if db_fault E CGetconn then
    r.1 = Raises UnboundLocalError
    /\ table r.2 = table s /\ in_use r.2 = in_use s
    /\ calls s r.2 [EvGetconn]
  else if db_fault E CCursor then
    r.1 = Raises UnboundLocalError
    /\ table r.2 = table s /\ in_use r.2 = in_use s + 1
    /\ calls s r.2 [EvGetconn; EvCursor; EvRollback]
  else if db_fault E CExecute then
    r.1 = rolled_back E (internal_error OperationalError)
    /\ table r.2 = table s /\ in_use r.2 = in_use s
    /\ calls s r.2 [EvGetconn; EvCursor; EvExecute q ps;
                    EvRollback; EvCursorClose; EvPutconn]
  else
    match option_map (λ st, Sql.run (db_engine E) st ps (clock s) (table s))
                     (Sql.parse q) with
    | None =>
        r.1 = rolled_back E (internal_error ProgrammingError)
        /\ table r.2 = table s /\ in_use r.2 = in_use s
        /\ calls s r.2 [EvGetconn; EvCursor; EvExecute q ps;
                        EvRollback; EvCursorClose; EvPutconn]
    | Some (inl e) =>
        r.1 = rolled_back E (internal_error e)
        /\ table r.2 = table s /\ in_use r.2 = in_use s
        /\ calls s r.2 [EvGetconn; EvCursor; EvExecute q ps;
                        EvRollback; EvCursorClose; EvPutconn]
    | Some (inr res) =>
        if Sql.rowcount res =? 0 then
          r.1 = Returns (JsonError "Flag não encontrada", 404)
          /\ table r.2 = table s /\ in_use r.2 = in_use s
          /\ calls s r.2 [EvGetconn; EvCursor; EvExecute q ps;
                          EvCursorClose; EvPutconn]
        else if db_fault E CFetch then
          r.1 = rolled_back E (internal_error OperationalError)
          /\ table r.2 = table s /\ in_use r.2 = in_use s
          /\ calls s r.2 [EvGetconn; EvCursor; EvExecute q ps; EvFetch;
                          EvRollback; EvCursorClose; EvPutconn]
        else if db_fault E CCommit then
          r.1 = rolled_back E (internal_error OperationalError)
          /\ table r.2 = table s /\ in_use r.2 = in_use s
          /\ calls s r.2 [EvGetconn; EvCursor; EvExecute q ps; EvFetch; EvCommit;
                          EvRollback; EvCursorClose; EvPutconn]
        else
          r.1 = Returns (JsonRow (head (Sql.returned res)), 200)
          /\ table r.2 = Sql.rows_after res /\ in_use r.2 = in_use s
          /\ calls s r.2 [EvGetconn; EvCursor; EvExecute q ps; EvFetch; EvCommit;
                          EvCursorClose; EvPutconn]
    end.

(** ** Every path of the other handlers *)

(** A run [r] from [s] ends with the outcome [o], the committed rows
    [t], [n] connections checked out and the calls [l]. *)
Definition ends (s : state) (r : outcome response * state)
    (o : outcome response) (t : list flag) (n : Z) (l : list event) : Prop :=
  r.1 = o /\ table r.2 = t /\ in_use r.2 = n /\ calls s r.2 l.

(** What a run of the create handler comes to, for a body that has the
    key [name]: [nm] is the value of the key and [ps] the parameters of
    the INSERT. *)
Definition create_outcome (E : env) (nm : json) (ps : list json)
    (s : state) (r : outcome response * state) : Prop :=
  let q := Sql.insert_text in
  if db_fault E CGetconn then
    ends s r (Returns (internal_error PoolTimeout)) (table s) (in_use s)
         [EvGetconn]
  else if db_fault E CCursor then
    ends s r (rolled_back E (internal_error OperationalError)) (table s) (in_use s)
         [EvGetconn; EvCursor; EvRollback; EvPutconn]
  else if db_fault E CExecute then
    ends s r (rolled_back E (internal_error OperationalError)) (table s) (in_use s)
         [EvGetconn; EvCursor; EvExecute q ps; EvRollback; EvCursorClose; EvPutconn]
  else
    match Sql.run (db_engine E) Sql.SInsert ps (clock s) (table s) with
    | inl UniqueViolation =>
        ends s r (rolled_back E (JsonErrorF "Flag '" nm "' já existe", 409))
             (table s) (in_use s)
             [EvGetconn; EvCursor; EvExecute q ps; EvRollback; EvCursorClose; EvPutconn]
    | inl e =>
        ends s r (rolled_back E (internal_error e)) (table s) (in_use s)
             [EvGetconn; EvCursor; EvExecute q ps; EvRollback; EvCursorClose; EvPutconn]
    | inr res =>
        if db_fault E CFetch then
          ends s r (rolled_back E (internal_error OperationalError)) (table s) (in_use s)
               [EvGetconn; EvCursor; EvExecute q ps; EvFetch;
                EvRollback; EvCursorClose; EvPutconn]
        else if db_fault E CCommit then
          ends s r (rolled_back E (internal_error OperationalError)) (table s) (in_use s)
               [EvGetconn; EvCursor; EvExecute q ps; EvFetch; EvCommit;
                EvRollback; EvCursorClose; EvPutconn]
        else
          ends s r (Returns (JsonRow (head (Sql.returned res)), 201))
               (Sql.rows_after res) (in_use s)
               [EvGetconn; EvCursor; EvExecute q ps; EvFetch; EvCommit;
                EvCursorClose; EvPutconn]
    end.

(** What a run of the delete handler comes to. *)
Definition delete_outcome (E : env) (n : string)
    (s : state) (r : outcome response * state) : Prop :=
  let x := EvExecute Sql.delete_text [JStr n] in
  if db_fault E CGetconn then
    ends s r (Raises UnboundLocalError) (table s) (in_use s) [EvGetconn]
  else if db_fault E CCursor then
    ends s r (Raises UnboundLocalError) (table s) (in_use s + 1)
         [EvGetconn; EvCursor; EvRollback]
  else if db_fault E CExecute then
    ends s r (rolled_back E (internal_error OperationalError)) (table s) (in_use s)
         [EvGetconn; EvCursor; x; EvRollback; EvCursorClose; EvPutconn]
  else if existsb (Sql.has_name n) (table s) then
    if db_fault E CCommit then
      ends s r (rolled_back E (internal_error OperationalError)) (table s) (in_use s)
           [EvGetconn; EvCursor; x; EvCommit; EvRollback; EvCursorClose; EvPutconn]
    else
      ends s r (Returns (NoBody, 204))
           (filter (λ f, Sql.has_name n f = false) (table s)) (in_use s)
           [EvGetconn; EvCursor; x; EvCommit; EvCursorClose; EvPutconn]
  else
    ends s r (Returns (JsonError "Flag não encontrada", 404)) (table s) (in_use s)
         [EvGetconn; EvCursor; x; EvCursorClose; EvPutconn].

(** What a run of a read-only handler comes to: [x] is the statement it
    executes and [found] the response it builds from the rows. *)
Definition read_outcome (E : env) (x : event) (found : response)
    (s : state) (r : outcome response * state) : Prop :=
  if db_fault E CGetconn then
    ends s r (Raises UnboundLocalError) (table s) (in_use s) [EvGetconn]
  else if db_fault E CCursor then
    ends s r (Raises UnboundLocalError) (table s) (in_use s + 1)
         [EvGetconn; EvCursor]
  else if db_fault E CExecute then
    ends s r (Returns (internal_error OperationalError)) (table s) (in_use s)
         [EvGetconn; EvCursor; x; EvCursorClose; EvPutconn]
  else if db_fault E CFetch then
    ends s r (Returns (internal_error OperationalError)) (table s) (in_use s)
         [EvGetconn; EvCursor; x; EvFetch; EvCursorClose; EvPutconn]
  else
    ends s r (Returns found) (table s) (in_use s)
         [EvGetconn; EvCursor; x; EvFetch; EvCursorClose; EvPutconn].

(** The response of the get handler for the rows of that name. *)
Definition get_flag_response (hit : list flag) : response :=
  match hit with
  | [] => (JsonError "Flag não encontrada", 404)
  | f :: _ => (JsonRow (Some f), 200)
  end.

(** Rows in ascending order of name: the name of each row is at most
    the name of the next one, in the order of the database. *)
Definition sorted_by_name (db : Sql.engine) (l : list flag) : Prop :=
  Sorted (λ a b, Sql.name_le db (name a) (name b) = true) l.

(** The order of the database puts any two names one way or the other. *)
Definition total_order (db : Sql.engine) : Prop :=
  forall a b, Sql.name_le db a b = true \/ Sql.name_le db b a = true.

(** No two rows of the table have the same name. *)
Definition unique_names (t : list flag) : Prop := NoDup (map name t).

(** No row was updated before it was created, nor created after [now]. *)
Definition timestamps_ok (now : Z) (t : list flag) : Prop :=
  Forall (λ f, created_at f <= updated_at f /\ updated_at f <= now) t.

(** *** Concrete surroundings, states and requests *)

Module Ex.

(** An authentication service that accepts the key ["k"] only. *)
Definition auth (url h : string) (t : Z) : http_outcome :=
  if String.eqb h "k" then Responded 200 else Responded 403.

(** A database that stores a number sent for a text column in decimal,
    reads the strings yes and no sent for a boolean column, refuses the
    other parameters that are not of the type of the column, and orders
    the names byte by byte. *)
Definition lenient : Sql.engine :=
  Sql.Engine
    (λ v, match v with
          | JNum z => Some (NilZero.string_of_int (Z.to_int z))
          | _ => None
          end)
    (λ v, match v with
          | JStr s => if String.eqb s "yes" then Some true
                      else if String.eqb s "no" then Some false else None
          | _ => None
          end)
    String.leb.

Definition healthy : env := Env "http://auth" auth (λ _, false) lenient.

(** The same, with a connection whose [cursor()] fails. *)
Definition broken_cursor : env :=
  Env "http://auth" auth (λ c, match c with CCursor => true | _ => false end) lenient.

Definition slow_auth : env := Env "http://auth" (λ _ _ _, TimedOut) (λ _, false) lenient.
Definition dead_auth : env := Env "http://auth" (λ _ _ _, Failed) (λ _, false) lenient.

Definition dark_mode : flag := Flag "dark_mode" "" false 7 7.

Definition empty : state := State Unbound Unbound [] None 0 10 [] (-1) [].
Definition one : state := State Unbound Unbound [dark_mode] None 0 10 [] (-1) [].

Definition obj (l : list (string * json)) : json := JObj (list_to_map l).

Definition req (b : json) : request := Request (Some "k") b.

End Ex.

(** ** Reasoning tools *)

Lemma truthy_obj_lookup (m : gmap string json) k v :
  m !! k = Some v -> Py.truthy (JObj m) = true.
Proof.
  intros H. simpl. apply negb_true_iff, bool_decide_eq_false.
  intros ->. rewrite lookup_empty in H. discriminate.
Qed.

Lemma parse_insert : Sql.parse Sql.insert_text = Some Sql.SInsert.
Proof. reflexivity. Qed.

Lemma parse_select_all : Sql.parse Sql.select_all_text = Some Sql.SSelectAll.
Proof. reflexivity. Qed.

Lemma parse_select_by_name : Sql.parse Sql.select_by_name_text = Some Sql.SSelectByName.
Proof. reflexivity. Qed.

Lemma parse_delete : Sql.parse Sql.delete_text = Some Sql.SDelete.
Proof. reflexivity. Qed.

Ltac unfold_m :=
  unfold call, try_, release, when, pool_getconn, pool_putconn, conn_cursor,
    cur_execute, cur_fetchone, cur_fetchall, cur_get_rowcount, cur_close,
    conn_commit, conn_rollback, requests_get, fails, load, test, get_json,
    bind, ret, raise, lift, modify, gets, id in *.

(** ** The authentication gate *)

(** C1, amended.  When the Authorization header is absent or empty,
    [require_auth] answers 401 "authorization required" and leaves the
    state as it was: no call to the authentication service, no call to
    the pool or the driver.  When the header is present and not empty, one
    GET goes to the validation endpoint with that header and a bound of
    3; a status other than 200 gives 401 "invalid credential", a timeout
    504 and another transport failure 503, each without running the
    wrapped handler; on status 200 the result is that of the handler. *)
Theorem require_auth_gate E req f s :
  let url := AUTH_SERVICE_URL E +:+ "/validate" in
  (authorization req = None \/ authorization req = Some "" ->
   require_auth E req f s
   = (Returns (JsonError "Authorization header obrigatório", 401), s))
  /\ (forall h, authorization req = Some h -> h <> "" ->
      let s1 := log (EvHttpGet url h 3) s in
      require_auth E req f s
      = match http_get E url h 3 with
        | Responded status =>
            if status =? 200 then call f s1
            else (Returns (JsonError "Chave de API inválida", 401), s1)
        | TimedOut =>
            (Returns (JsonError "Serviço de autenticação indisponível (timeout)", 504), s1)
        | Failed =>
            (Returns (JsonError "Serviço de autenticação indisponível", 503), s1)
        end).
Proof.
  intros url. split.
  - intros [H | H]; unfold require_auth; rewrite H; reflexivity.
  - intros h H Hne s1. unfold require_auth. rewrite H. cbn [header_truthy negb].
    apply String.eqb_neq in Hne. rewrite Hne. cbn [negb default from_option].
    unfold_m. fold url. fold s1.
    destruct (http_get E url h 3) as [st | |]; try reflexivity.
    destruct (st =? 200); reflexivity.
Qed.

Lemma require_auth_gate_witness :
  require_auth Ex.healthy (Request None JNull) (create_flag Ex.healthy (Request None JNull)) Ex.empty
  = (Returns (JsonError "Authorization header obrigatório", 401), Ex.empty)
  /\ (require_auth Ex.healthy (Ex.req JNull) (get_flags Ex.healthy) Ex.empty).1
     = Returns (JsonRows [], 200)
  /\ (require_auth Ex.healthy (Request (Some "bad") JNull) (get_flags Ex.healthy) Ex.empty).1
     = Returns (JsonError "Chave de API inválida", 401).
Proof.
  split; [| split].
  - apply (proj1 (require_auth_gate Ex.healthy (Request None JNull)
                    (create_flag Ex.healthy (Request None JNull)) Ex.empty)).
    left. reflexivity.
  - rewrite (proj2 (require_auth_gate Ex.healthy (Ex.req JNull)
                      (get_flags Ex.healthy) Ex.empty) "k" eq_refl); [reflexivity | discriminate].
  - rewrite (proj2 (require_auth_gate Ex.healthy (Request (Some "bad") JNull)
                      (get_flags Ex.healthy) Ex.empty) "bad" eq_refl); [reflexivity | discriminate].
Defined.

(** C1 as stated fails: a header that is present but empty is not
    forwarded. *)
Lemma present_header_not_always_forwarded : ~ present_header_is_forwarded.
Proof.
  intros H.
  specialize (H Ex.healthy (Request (Some "") JNull) (get_flags Ex.healthy) Ex.empty ""
                eq_refl).
  vm_compute in H. exact H.
Qed.

(** ** Create *)

(** C2.  A create request whose body is an object with a string [name]
    (and, when given, a string [description] and a boolean [is_enabled]),
    naming no flag of the table, on a database that does not fail, returns
    201 with the created row: the row echoes the name, the description
    (the empty string when omitted) and is_enabled (false when omitted),
    its created_at equals its updated_at, and it is the row added to the
    table. *)
Theorem create_flag_echoes_input E h (m : gmap string json) n od oe s :
  (forall c, db_fault E c = false) ->
  m !! "name" = Some (JStr n) ->
  m !! "description" = JStr <$> od ->
  m !! "is_enabled" = JBool <$> oe ->
  existsb (Sql.has_name n) (table s) = false ->
  let row := Flag n (default "" od) (default false oe) (clock s) (clock s) in
  let r := call (create_flag E (Request h (JObj m))) s in
  r.1 = Returns (JsonRow (Some row), 201)
  /\ created_at row = updated_at row
  /\ table r.2 = (table s ++ [row])%list
  /\ in_use r.2 = in_use s.
Proof.
  intros HE Hn Hd He Hfresh row r. subst row r.
  unfold create_flag. unfold_m. cbn [body].
  rewrite (truthy_obj_lookup _ _ _ Hn).
  cbn [negb Py.contains Py.getitem Py.get].
  rewrite Hn, Hd, He, !HE, parse_insert.
  destruct s; cbn in *.
  destruct od, oe; cbn; rewrite Hfresh; cbn; repeat split; lia.
Qed.

Lemma create_flag_echoes_input_witness :
  let row := Flag "beta" "" false 10 10 in
  let r := call (create_flag Ex.healthy (Ex.req (Ex.obj [("name", JStr "beta")]))) Ex.one in
  r.1 = Returns (JsonRow (Some row), 201)
  /\ created_at row = updated_at row
  /\ table r.2 = [Ex.dark_mode; row]
  /\ in_use r.2 = 0.
Proof.
  apply (create_flag_echoes_input Ex.healthy (Some "k")
           (list_to_map [("name", JStr "beta")]) "beta" None None Ex.one);
    reflexivity.
Defined.

(** C3.  A create request that names a flag already in the table, on a
    database that does not otherwise fail, returns 409; the handler rolls
    the transaction back before it gives the connection back, no
    transaction is left open, and the table is left as it was. *)
Theorem create_flag_duplicate_conflict E h (m : gmap string json) n od oe s :
  (forall c, db_fault E c = false) ->
  m !! "name" = Some (JStr n) ->
  m !! "description" = JStr <$> od ->
  m !! "is_enabled" = JBool <$> oe ->
  existsb (Sql.has_name n) (table s) = true ->
  let r := call (create_flag E (Request h (JObj m))) s in
  r.1 = Returns (JsonErrorF "Flag '" (JStr n) "' já existe", 409)
  /\ table r.2 = table s
  /\ pending r.2 = None
  /\ in_use r.2 = in_use s
  /\ calls s r.2
       [EvGetconn; EvCursor;
        EvExecute Sql.insert_text
          [JStr n; JStr (default "" od); JBool (default false oe)];
        EvRollback; EvCursorClose; EvPutconn].
Proof.
  intros HE Hn Hd He Hdup r. subst r.
  unfold create_flag, calls. unfold_m. cbn [body].
  rewrite (truthy_obj_lookup _ _ _ Hn).
  cbn [negb Py.contains Py.getitem Py.get].
  rewrite Hn, Hd, He, !HE, parse_insert.
  destruct s; cbn in *.
  destruct od, oe; cbn; rewrite Hdup; cbn; repeat split; lia.
Qed.

Lemma create_flag_duplicate_conflict_witness :
  let r := call (create_flag Ex.healthy
                   (Ex.req (Ex.obj [("name", JStr "dark_mode");
                                    ("is_enabled", JBool true)]))) Ex.one in
  r.1 = Returns (JsonErrorF "Flag '" (JStr "dark_mode") "' já existe", 409)
  /\ table r.2 = [Ex.dark_mode]
  /\ pending r.2 = None
  /\ in_use r.2 = 0
  /\ calls Ex.one r.2
       [EvGetconn; EvCursor;
        EvExecute Sql.insert_text [JStr "dark_mode"; JStr ""; JBool true];
        EvRollback; EvCursorClose; EvPutconn].
Proof.
  apply (create_flag_duplicate_conflict Ex.healthy (Some "k")
           (list_to_map [("name", JStr "dark_mode"); ("is_enabled", JBool true)])
           "dark_mode" None (Some true) Ex.one);
    reflexivity.
Defined.

(** C6 as stated fails: a body whose name is the empty string passes the
    validation and goes to the database. *)
Lemma create_flag_accepts_empty_name : ~ empty_name_is_rejected.
Proof.
  intros H.
  destruct (H Ex.healthy (Some "k") (list_to_map [("name", JStr "")]) Ex.empty)
    as [p Hp]; [reflexivity |].
  vm_compute in Hp. discriminate Hp.
Qed.

(** C6, amended.  A create request whose JSON body has no [name] -- an
    object without the key, an array or a string that does not contain
    it, or one of [null], [false] and [0] -- is answered 400 before any
    call to the pool or the driver: the state is left as it was. *)
Theorem create_flag_requires_name E h (v : json) s :
  lacks "name" v ->
  truthy_scalar v = false ->
  call (create_flag E (Request h v)) s
  = (Returns (JsonError "'name' é obrigatório", 400), s).
Proof.
  intros Hlack Hv. destruct s.
  destruct v as [| b | z | t | [| x l] | m]; cbn in Hlack, Hv;
    unfold create_flag; unfold_m; cbn; rewrite ?Hlack, ?Hv; try reflexivity.
  - destruct (String.eqb t ""); reflexivity.
  - destruct (bool_decide (m = ∅)); reflexivity.
Qed.

Lemma create_flag_requires_name_witness :
  call (create_flag Ex.healthy (Ex.req (Ex.obj [("description", JStr "x")]))) Ex.one
  = (Returns (JsonError "'name' é obrigatório", 400), Ex.one)
  /\ call (create_flag Ex.healthy (Ex.req (JArr [JNum 1]))) Ex.one
     = (Returns (JsonError "'name' é obrigatório", 400), Ex.one)
  /\ call (create_flag Ex.healthy (Ex.req JNull)) Ex.one
     = (Returns (JsonError "'name' é obrigatório", 400), Ex.one).
Proof.
  split; [| split].
  - apply (create_flag_requires_name Ex.healthy (Some "k")
             (Ex.obj [("description", JStr "x")]) Ex.one); reflexivity.
  - apply (create_flag_requires_name Ex.healthy (Some "k") (JArr [JNum 1]) Ex.one);
      reflexivity.
  - apply (create_flag_requires_name Ex.healthy (Some "k") JNull Ex.one);
      [exact I | reflexivity].
Defined.

(** ** Update and delete *)

Lemma parse_update_d :
  Sql.parse (update_query ["description = %s"])
  = Some (Sql.SUpdate [("description", Sql.EParam); ("updated_at", Sql.ENow)]).
Proof. reflexivity. Qed.

Lemma parse_update_e :
  Sql.parse (update_query ["is_enabled = %s"])
  = Some (Sql.SUpdate [("is_enabled", Sql.EParam); ("updated_at", Sql.ENow)]).
Proof. reflexivity. Qed.

Lemma parse_update_de :
  Sql.parse (update_query ["description = %s"; "is_enabled = %s"])
  = Some (Sql.SUpdate [("description", Sql.EParam); ("is_enabled", Sql.EParam);
                       ("updated_at", Sql.ENow)]).
Proof. reflexivity. Qed.

Lemma add_field_obj (m : gmap string json) k a fv :
  add_field (JObj m) k a fv
  = Returns (match m !! k with
             | Some v => ((fv.1 ++ [a])%list, (fv.2 ++ [v])%list)
             | None => fv
             end).
Proof.
  unfold add_field. cbn. destruct (m !! k); reflexivity.
Qed.

Lemma filter_absent n (t : list flag) :
  existsb (Sql.has_name n) t = false ->
  filter (λ r, Sql.has_name n r = true) t = [].
Proof.
  induction t as [| r t IH]; intros H; [reflexivity |].
  cbn in H. apply orb_false_iff in H as [Hr Ht].
  rewrite filter_cons. destruct (decide (Sql.has_name n r = true)); [congruence | auto].
Qed.

Lemma filter_present n (t : list flag) :
  existsb (Sql.has_name n) t = true ->
  (Z.of_nat (length (filter (λ r, Sql.has_name n r = true) t)) =? 0) = false.
Proof.
  induction t as [| r t IH]; intros H; [discriminate |].
  cbn in H. rewrite filter_cons.
  destruct (decide (Sql.has_name n r = true)) as [Hr | Hr]; [reflexivity |].
  apply IH. destruct (Sql.has_name n r); [congruence | exact H].
Qed.

Lemma map_absent n (f : flag -> flag) (t : list flag) :
  existsb (Sql.has_name n) t = false ->
  map (λ r, if Sql.has_name n r then f r else r) t = t.
Proof.
  induction t as [| r t IH]; intros H; [reflexivity |].
  cbn in H. apply orb_false_iff in H as [Hr Ht].
  cbn. rewrite Hr, IH by exact Ht. reflexivity.
Qed.

Lemma keep_absent n (t : list flag) :
  existsb (Sql.has_name n) t = false ->
  filter (λ r, Sql.has_name n r = false) t = t.
Proof.
  induction t as [| r t IH]; intros H; [reflexivity |].
  cbn in H. apply orb_false_iff in H as [Hr Ht].
  rewrite filter_cons. destruct (decide (Sql.has_name n r = false)); [| congruence].
  rewrite IH by exact Ht. reflexivity.
Qed.

Lemma absent_after_delete n (t : list flag) :
  existsb (Sql.has_name n) (filter (λ r, Sql.has_name n r = false) t) = false.
Proof.
  induction t as [| r t IH]; [reflexivity |].
  rewrite filter_cons. destruct (decide (Sql.has_name n r = false)) as [Hr | Hr].
  - cbn. rewrite Hr, IH. reflexivity.
  - exact IH.
Qed.

(** C7: the handler does not do what the claim says on a body that is
    a number other than 0, or [true].  An update whose JSON body has
    neither [description] nor [is_enabled] leaves the state, and so the
    row, as it was, with no call to the pool or the driver; but it is
    answered 400 only when the body is not such a number or [true]: on
    those, ['description' in data] raises [TypeError] before the try
    block, and the run ends in that exception instead of the 400. *)
Theorem update_flag_without_recognized_field E h (v : json) n s :
  lacks "description" v ->
  lacks "is_enabled" v ->
  call (update_flag E (Request h v) n) s
  = (if truthy_scalar v then Raises TypeError
     else Returns
            (JsonError
               (if Py.truthy v
                then "Pelo menos um campo ('description', 'is_enabled') é obrigatório"
                else "Corpo da requisição obrigatório"), 400), s).
Proof.
  intros Hd He. destruct s.
  destruct v as [| b | z | t | [| x l] | m]; cbn in Hd, He;
    unfold update_flag, add_field; unfold_m; cbn; rewrite ?Hd, ?He; try reflexivity.
  - destruct b; reflexivity.
  - destruct (z =? 0); reflexivity.
  - destruct (String.eqb t ""); reflexivity.
  - destruct (bool_decide (m = ∅)); reflexivity.
Qed.

Lemma update_flag_without_recognized_field_witness :
  call (update_flag Ex.healthy (Ex.req (JNum 5)) "dark_mode") Ex.one
  = (Raises TypeError, Ex.one)
  /\ call (update_flag Ex.healthy (Ex.req (Ex.obj [("enabled", JBool true)])) "dark_mode")
          Ex.one
     = (Returns (JsonError
                   "Pelo menos um campo ('description', 'is_enabled') é obrigatório",
                 400), Ex.one).
Proof.
  split.
  - apply (update_flag_without_recognized_field Ex.healthy (Some "k") (JNum 5)
             "dark_mode" Ex.one); exact I.
  - apply (update_flag_without_recognized_field Ex.healthy (Some "k")
             (Ex.obj [("enabled", JBool true)]) "dark_mode" Ex.one); reflexivity.
Defined.

(** *** Statements on a table that has, or has not, the name *)

Lemma length_present n (t : list flag) :
  existsb (Sql.has_name n) t = true ->
  exists k, Z.of_nat (length (filter (λ r, Sql.has_name n r = true) t)) = Z.pos k.
Proof.
  intros H. pose proof (filter_present n t H) as Hk.
  destruct (Z.of_nat (length (filter (λ r, Sql.has_name n r = true) t))) as [| k | k] eqn:Hz.
  - discriminate Hk.
  - exists k. reflexivity.
  - lia.
Qed.

Lemma run_delete_absent db n now (t : list flag) :
  existsb (Sql.has_name n) t = false ->
  Sql.run db Sql.SDelete [JStr n] now t = inr (Sql.Result t [] 0).
Proof.
  intros H. cbn. rewrite (filter_absent _ _ H), (keep_absent _ _ H). reflexivity.
Qed.

Lemma run_delete_present db n now (t : list flag) :
  existsb (Sql.has_name n) t = true ->
  exists k, Sql.run db Sql.SDelete [JStr n] now t
            = inr (Sql.Result (filter (λ r, Sql.has_name n r = false) t) [] (Z.pos k)).
Proof.
  intros H. destruct (length_present n t H) as [k Hk]. exists k.
  cbn. rewrite Hk. reflexivity.
Qed.

Lemma run_update_absent db sets ps f n now (t : list flag) :
  Sql.bind_sets db sets ps now = inr (f, [JStr n]) ->
  existsb (Sql.has_name n) t = false ->
  Sql.run db (Sql.SUpdate sets) ps now t = inr (Sql.Result t [] 0).
Proof.
  intros Hb H. cbn -[Sql.bind_sets]. rewrite Hb. cbn.
  rewrite (filter_absent _ _ H), (map_absent _ _ _ H). reflexivity.
Qed.

(** The runs of update and delete on a database that does not fail. *)

Lemma delete_flag_not_found_run E n s :
  (forall c, db_fault E c = false) ->
  existsb (Sql.has_name n) (table s) = false ->
  let d := call (delete_flag E n) s in
  d.1 = Returns (JsonError "Flag não encontrada", 404)
  /\ table d.2 = table s
  /\ in_use d.2 = in_use s
  /\ calls s d.2 [EvGetconn; EvCursor; EvExecute Sql.delete_text [JStr n];
                  EvCursorClose; EvPutconn].
Proof.
  intros HE Habs d. subst d.
  unfold delete_flag, calls. unfold_m. rewrite parse_delete, !HE.
  destruct s; cbn in Habs; cbn -[Sql.run].
  rewrite (run_delete_absent _ _ _ _ Habs). cbn.
  repeat split; lia.
Qed.

Lemma delete_flag_found_run E n s :
  (forall c, db_fault E c = false) ->
  existsb (Sql.has_name n) (table s) = true ->
  let d := call (delete_flag E n) s in
  d.1 = Returns (NoBody, 204)
  /\ table d.2 = filter (λ r, Sql.has_name n r = false) (table s)
  /\ in_use d.2 = in_use s
  /\ calls s d.2 [EvGetconn; EvCursor; EvExecute Sql.delete_text [JStr n];
                  EvCommit; EvCursorClose; EvPutconn].
Proof.
  intros HE Hpres d. subst d.
  unfold delete_flag, calls. unfold_m. rewrite parse_delete, !HE.
  destruct s; cbn in Hpres; cbn -[Sql.run].
  destruct (run_delete_present (db_engine E) n clock0 _ Hpres) as [k ->]. cbn.
  repeat split; lia.
Qed.

Lemma update_flag_not_found_run E h (m : gmap string json) od oe n s :
  (forall c, db_fault E c = false) ->
  m !! "description" = JStr <$> od ->
  m !! "is_enabled" = JBool <$> oe ->
  is_Some od \/ is_Some oe ->
  existsb (Sql.has_name n) (table s) = false ->
  let u := call (update_flag E (Request h (JObj m)) n) s in
  u.1 = Returns (JsonError "Flag não encontrada", 404)
  /\ table u.2 = table s
  /\ in_use u.2 = in_use s
  /\ exists q ps,
       calls s u.2 [EvGetconn; EvCursor; EvExecute q ps; EvCursorClose; EvPutconn].
Proof.
  intros HE Hd He Hsome Habs u. subst u.
  assert (Ht : Py.truthy (JObj m) = true)
    by (destruct Hsome as [[x ->] | [x ->]];
        [exact (truthy_obj_lookup _ _ _ Hd) | exact (truthy_obj_lookup _ _ _ He)]).
  unfold update_flag, calls. unfold_m. cbn [body].
  rewrite !add_field_obj, Hd, He, Ht.
  destruct s; cbn in Habs.
  destruct od, oe; cbn -[Sql.parse update_query Sql.run].
  4: exfalso; destruct Hsome as [[x Hx] | [x Hx]]; discriminate Hx.
  all: rewrite ?parse_update_d, ?parse_update_e, ?parse_update_de, !HE;
    cbn -[Sql.run].
  all: erewrite run_update_absent by (try reflexivity; exact Habs); cbn.
  all: repeat split; try lia.
  all: eexists; eexists; reflexivity.
Qed.

(** C8.  On a database that does not fail: an update (with a well-typed
    recognized field) or a delete that names no flag of the table returns
    404 and leaves the table as it was; a delete that names a flag of the
    table returns 204 with no body and removes the rows of that name, and
    a second delete of the same name then returns 404. *)
Theorem not_found_outcomes E h (m : gmap string json) od oe n s :
  (forall c, db_fault E c = false) ->
  m !! "description" = JStr <$> od ->
  m !! "is_enabled" = JBool <$> oe ->
  is_Some od \/ is_Some oe ->
  let u := call (update_flag E (Request h (JObj m)) n) s in
  let d := call (delete_flag E n) s in
  let d' := call (delete_flag E n) d.2 in
  (existsb (Sql.has_name n) (table s) = false ->
   u.1 = Returns (JsonError "Flag não encontrada", 404) /\ table u.2 = table s
   /\ d.1 = Returns (JsonError "Flag não encontrada", 404) /\ table d.2 = table s)
  /\ (existsb (Sql.has_name n) (table s) = true ->
      d.1 = Returns (NoBody, 204)
      /\ table d.2 = filter (λ r, Sql.has_name n r = false) (table s)
      /\ d'.1 = Returns (JsonError "Flag não encontrada", 404)
      /\ table d'.2 = table d.2).
Proof.
  intros HE Hd He Hsome u d d'. split.
  - intros Habs.
    destruct (update_flag_not_found_run E h m od oe n s HE Hd He Hsome Habs)
      as (Hu1 & Hu2 & _).
    destruct (delete_flag_not_found_run E n s HE Habs) as (Hd1 & Hd2 & _).
    auto.
  - intros Hpres.
    destruct (delete_flag_found_run E n s HE Hpres) as (Hd1 & Hd2 & _).
    assert (Habs : existsb (Sql.has_name n) (table d.2) = false).
    { subst d. rewrite Hd2. apply absent_after_delete. }
    destruct (delete_flag_not_found_run E n d.2 HE Habs) as (Hd1' & Hd2' & _).
    auto.
Qed.

Lemma not_found_outcomes_witness :
  let m : gmap string json := list_to_map [("is_enabled", JBool true)] in
  let u := call (update_flag Ex.healthy (Request (Some "k") (JObj m)) "ghost") Ex.one in
  let g := call (delete_flag Ex.healthy "ghost") Ex.one in
  let d := call (delete_flag Ex.healthy "dark_mode") Ex.one in
  let d' := call (delete_flag Ex.healthy "dark_mode") d.2 in
  (u.1 = Returns (JsonError "Flag não encontrada", 404) /\ table u.2 = [Ex.dark_mode]
   /\ g.1 = Returns (JsonError "Flag não encontrada", 404) /\ table g.2 = [Ex.dark_mode])
  /\ (d.1 = Returns (NoBody, 204)
      /\ table d.2 = filter (λ r, Sql.has_name "dark_mode" r = false) [Ex.dark_mode]
      /\ d'.1 = Returns (JsonError "Flag não encontrada", 404)
      /\ table d'.2 = table d.2).
Proof.
  intros m.
  assert (Hm : m !! "description" = JStr <$> None) by reflexivity.
  assert (He : m !! "is_enabled" = JBool <$> Some true) by reflexivity.
  assert (Hs : is_Some (@None string) \/ is_Some (Some true))
    by (right; exists true; reflexivity).
  split.
  - exact (proj1 (not_found_outcomes Ex.healthy (Some "k") m None (Some true) "ghost"
                    Ex.one (λ _, eq_refl) Hm He Hs) eq_refl).
  - exact (proj2 (not_found_outcomes Ex.healthy (Some "k") m None (Some true) "dark_mode"
                    Ex.one (λ _, eq_refl) Hm He Hs) eq_refl).
Defined.

(** C4: the not-found paths do not do what the claim says.  On a
    database that does not fail, an update or a delete that names no flag
    of the table returns 404 after exactly the calls listed: the connection
    goes back to the pool with no rollback (and no commit) before it. *)
Theorem not_found_paths_skip_rollback E h (m : gmap string json) od oe n s :
  (forall c, db_fault E c = false) ->
  m !! "description" = JStr <$> od ->
  m !! "is_enabled" = JBool <$> oe ->
  is_Some od \/ is_Some oe ->
  existsb (Sql.has_name n) (table s) = false ->
  let u := call (update_flag E (Request h (JObj m)) n) s in
  let d := call (delete_flag E n) s in
  (u.1 = Returns (JsonError "Flag não encontrada", 404)
   /\ exists q ps,
        calls s u.2 [EvGetconn; EvCursor; EvExecute q ps; EvCursorClose; EvPutconn])
  /\ (d.1 = Returns (JsonError "Flag não encontrada", 404)
      /\ calls s d.2 [EvGetconn; EvCursor; EvExecute Sql.delete_text [JStr n];
                      EvCursorClose; EvPutconn]).
Proof.
  intros HE Hd He Hsome Habs u d.
  destruct (update_flag_not_found_run E h m od oe n s HE Hd He Hsome Habs)
    as (Hu1 & _ & _ & Hu4).
  destruct (delete_flag_not_found_run E n s HE Habs) as (Hd1 & _ & _ & Hd4).
  auto.
Qed.

Lemma not_found_paths_skip_rollback_witness :
  let m : gmap string json := list_to_map [("is_enabled", JBool true)] in
  let u := call (update_flag Ex.healthy (Request (Some "k") (JObj m)) "ghost") Ex.empty in
  let d := call (delete_flag Ex.healthy "ghost") Ex.empty in
  (u.1 = Returns (JsonError "Flag não encontrada", 404)
   /\ exists q ps,
        calls Ex.empty u.2 [EvGetconn; EvCursor; EvExecute q ps; EvCursorClose; EvPutconn])
  /\ (d.1 = Returns (JsonError "Flag não encontrada", 404)
      /\ calls Ex.empty d.2 [EvGetconn; EvCursor; EvExecute Sql.delete_text [JStr "ghost"];
                             EvCursorClose; EvPutconn]).
Proof.
  intros m.
  assert (Hm : m !! "description" = JStr <$> None) by reflexivity.
  assert (He : m !! "is_enabled" = JBool <$> Some true) by reflexivity.
  assert (Hs : is_Some (@None string) \/ is_Some (Some true))
    by (right; exists true; reflexivity).
  exact (not_found_paths_skip_rollback Ex.healthy (Some "k") m None (Some true) "ghost"
           Ex.empty (λ _, eq_refl) Hm He Hs eq_refl).
Defined.

(** ** The connection of a request *)

(** C5: the handlers other than create do not do what the claim says.
    When the pool hands out a connection and [conn.cursor()] then fails,
    the list, get, update and delete handlers end in [UnboundLocalError],
    raised by [if cur:] in their finally block before [pool.putconn] is
    reached: the connection is never given back, and the pool is left with
    one more connection checked out than before the request. *)
Theorem cursor_failure_leaks_connection E h (m : gmap string json) n s :
  db_fault E CGetconn = false ->
  db_fault E CCursor = true ->
  is_Some (m !! "description") \/ is_Some (m !! "is_enabled") ->
  let l := call (get_flags E) s in
  let g := call (get_flag E n) s in
  let u := call (update_flag E (Request h (JObj m)) n) s in
  let d := call (delete_flag E n) s in
  (l.1 = Raises UnboundLocalError /\ in_use l.2 = in_use s + 1
   /\ calls s l.2 [EvGetconn; EvCursor])
  /\ (g.1 = Raises UnboundLocalError /\ in_use g.2 = in_use s + 1
      /\ calls s g.2 [EvGetconn; EvCursor])
  /\ (u.1 = Raises UnboundLocalError /\ in_use u.2 = in_use s + 1
      /\ calls s u.2 [EvGetconn; EvCursor; EvRollback])
  /\ (d.1 = Raises UnboundLocalError /\ in_use d.2 = in_use s + 1
      /\ calls s d.2 [EvGetconn; EvCursor; EvRollback]).
Proof.
  intros Hg Hc Hsome l g u d. subst l g u d.
  assert (Ht : Py.truthy (JObj m) = true)
    by (destruct Hsome as [[x Hx] | [x Hx]]; exact (truthy_obj_lookup _ _ _ Hx)).
  unfold get_flags, get_flag, update_flag, delete_flag, calls. unfold_m. cbn [body].
  rewrite !add_field_obj, Ht, Hg, Hc.
  destruct (db_fault E CRollback).
  all: destruct s; cbn -[Sql.parse update_query Sql.run].
  all: repeat split; try lia.
  all: destruct (m !! "description") as [vd |], (m !! "is_enabled") as [ve |];
    cbn -[Sql.parse update_query Sql.run]; try reflexivity; try lia.
  all: exfalso; destruct Hsome as [[x Hx] | [x Hx]]; discriminate Hx.
Qed.

Lemma cursor_failure_leaks_connection_witness :
  let m : gmap string json := list_to_map [("is_enabled", JBool true)] in
  let l := call (get_flags Ex.broken_cursor) Ex.one in
  let g := call (get_flag Ex.broken_cursor "dark_mode") Ex.one in
  let u := call (update_flag Ex.broken_cursor (Request (Some "k") (JObj m)) "dark_mode")
                Ex.one in
  let d := call (delete_flag Ex.broken_cursor "dark_mode") Ex.one in
  (l.1 = Raises UnboundLocalError /\ in_use l.2 = 0 + 1
   /\ calls Ex.one l.2 [EvGetconn; EvCursor])
  /\ (g.1 = Raises UnboundLocalError /\ in_use g.2 = 0 + 1
      /\ calls Ex.one g.2 [EvGetconn; EvCursor])
  /\ (u.1 = Raises UnboundLocalError /\ in_use u.2 = 0 + 1
      /\ calls Ex.one u.2 [EvGetconn; EvCursor; EvRollback])
  /\ (d.1 = Raises UnboundLocalError /\ in_use d.2 = 0 + 1
      /\ calls Ex.one d.2 [EvGetconn; EvCursor; EvRollback]).
Proof.
  intros m.
  assert (Hs : is_Some (m !! "description") \/ is_Some (m !! "is_enabled"))
    by (right; exists (JBool true); reflexivity).
  exact (cursor_failure_leaks_connection Ex.broken_cursor (Some "k") m "dark_mode"
           Ex.one eq_refl eq_refl Hs).
Defined.

(** ** Every path of an update *)

(** Run the update handler on a path whose faults and statement result
    are hypotheses. *)
Ltac update_path Hd He Ht :=
  unfold update_flag, calls; unfold_m; cbn [body];
  rewrite !add_field_obj, ?Hd, ?He, Ht;
  repeat match goal with
         | Hf : db_fault _ _ = _ |- _ => rewrite !Hf; clear Hf
         end;
  cbn -[Sql.parse update_query Sql.run];
  rewrite ?parse_update_d, ?parse_update_e, ?parse_update_de;
  cbn -[Sql.run];
  repeat match goal with
         | Hf : Sql.run _ _ _ _ _ = _ |- _ => rewrite !Hf; clear Hf
         end;
  cbn; repeat split; first [reflexivity | lia].

Lemma update_flag_summary E h (m : gmap string json) n s :
  is_Some (m !! "description") \/ is_Some (m !! "is_enabled") ->
  let fv := supplied (m !! "description") (m !! "is_enabled") in
  update_outcome E (update_query fv.1) (fv.2 ++ [JStr n])%list s
                 (call (update_flag E (Request h (JObj m)) n) s).
Proof.
  intros Hsome fv. subst fv.
  assert (Ht : Py.truthy (JObj m) = true)
    by (destruct Hsome as [[x Hx] | [x Hx]]; exact (truthy_obj_lookup _ _ _ Hx)).
  destruct s.
  destruct (m !! "description") as [vd |] eqn:Hd, (m !! "is_enabled") as [ve |] eqn:He.
  4: exfalso; destruct Hsome as [[x Hx] | [x Hx]]; discriminate Hx.
  all: clear Hsome; unfold update_outcome, rolled_back;
    cbn [supplied fst snd app clock table in_use].
  all: rewrite ?parse_update_d, ?parse_update_e, ?parse_update_de; cbn [option_map].
  all: destruct (db_fault E CRollback) eqn:Hr.
  all: destruct (db_fault E CGetconn) eqn:Hg; [update_path Hd He Ht |].
  all: destruct (db_fault E CCursor) eqn:Hc; [update_path Hd He Ht |].
  all: destruct (db_fault E CExecute) eqn:Hx; [update_path Hd He Ht |].
  all: match goal with
       | |- context [Sql.run ?db ?st ?ps ?now ?t] =>
           destruct (Sql.run db st ps now t) as [e | [ra rt [| k | k]]] eqn:Hrun
       end;
    cbn [Sql.rowcount Sql.returned Sql.rows_after Z.eqb].
  all: try (update_path Hd He Ht; fail).
  all: destruct (db_fault E CFetch) eqn:Hf; [update_path Hd He Ht |].
  all: destruct (db_fault E CCommit) eqn:Hk; update_path Hd He Ht.
Qed.

Lemma update_flag_no_field_run E h (m : gmap string json) n s :
  m !! "description" = None ->
  m !! "is_enabled" = None ->
  exists msg,
    call (update_flag E (Request h (JObj m)) n) s = (Returns (JsonError msg, 400), s).
Proof.
  intros Hd He. destruct s. unfold update_flag. unfold_m. cbn [body].
  rewrite !add_field_obj, Hd, He.
  destruct (Py.truthy (JObj m)); cbn; eexists; reflexivity.
Qed.

(** ** The frame of an update *)

Lemma Forall2_map_same {A} (P : A -> A -> Prop) (f : A -> A) (l : list A) :
  (forall x, P x (f x)) -> Forall2 P l (map f l).
Proof.
  intros H. induction l as [| x l IH]; cbn; constructor; auto.
Qed.

Lemma has_name_true n r : Sql.has_name n r = true -> name r = n.
Proof. unfold Sql.has_name. apply String.eqb_eq. Qed.

Lemma has_name_false n r : Sql.has_name n r = false -> name r <> n.
Proof. unfold Sql.has_name. apply String.eqb_neq. Qed.

Lemma run_update_inv db sets ps now (t : list flag) res :
  Sql.run db (Sql.SUpdate sets) ps now t = inr res ->
  exists f v n',
    Sql.bind_sets db sets ps now = inr (f, [v])
    /\ Sql.as_text db (Sql.VParam v) = Some n'
    /\ res = Sql.Result (map (λ r, if Sql.has_name n' r then f r else r) t)
                        (map f (filter (λ r, Sql.has_name n' r = true) t))
                        (Z.of_nat (length (filter (λ r, Sql.has_name n' r = true) t))).
Proof.
  cbn -[Sql.bind_sets Sql.as_text]. intros H.
  destruct (Sql.bind_sets db sets ps now) as [e | [f [| v [| v' rest]]]]; try discriminate H.
  destruct (Sql.as_text db (Sql.VParam v)) as [n' |] eqn:Hn; [| discriminate H].
  exists f, v, n'. split; [reflexivity | split; [exact Hn | congruence]].
Qed.

(** The three SET lists of the update handler, bound to their
    parameters. *)
Lemma bind_sets_d db vd w now :
  Sql.bind_sets db [("description", Sql.EParam); ("updated_at", Sql.ENow)] [vd; w] now
  = match Sql.as_text db (Sql.VParam vd) with
    | Some d => inr (λ r, Sql.set_updated_at now (Sql.set_description d r), [w])
    | None => inl DataError
    end.
Proof.
  cbn -[Sql.as_text]. destruct (Sql.as_text db (Sql.VParam vd)); reflexivity.
Qed.

Lemma bind_sets_e db ve w now :
  Sql.bind_sets db [("is_enabled", Sql.EParam); ("updated_at", Sql.ENow)] [ve; w] now
  = match Sql.as_bool db (Sql.VParam ve) with
    | Some e => inr (λ r, Sql.set_updated_at now (Sql.set_is_enabled e r), [w])
    | None => inl DataError
    end.
Proof.
  cbn -[Sql.as_bool]. destruct (Sql.as_bool db (Sql.VParam ve)); reflexivity.
Qed.

Lemma bind_sets_de db vd ve w now :
  Sql.bind_sets db [("description", Sql.EParam); ("is_enabled", Sql.EParam);
                    ("updated_at", Sql.ENow)] [vd; ve; w] now
  = match Sql.as_text db (Sql.VParam vd), Sql.as_bool db (Sql.VParam ve) with
    | Some d, Some e =>
        inr (λ r, Sql.set_updated_at now (Sql.set_is_enabled e (Sql.set_description d r)),
             [w])
    | _, _ => inl DataError
    end.
Proof.
  cbn -[Sql.as_text Sql.as_bool].
  destruct (Sql.as_text db (Sql.VParam vd)), (Sql.as_bool db (Sql.VParam ve));
    reflexivity.
Qed.

(** Take the bound SET list [Hb] of a successful update apart: the
    function it applies to a row and the values the database stored. *)
Ltac bound_sets Hb :=
  rewrite ?bind_sets_d, ?bind_sets_e, ?bind_sets_de in Hb;
  repeat match type of Hb with
         | context [Sql.as_text ?db ?x] =>
             let Hx := fresh "Hx" in
             destruct (Sql.as_text db x) eqn:Hx; try discriminate Hb
         | context [Sql.as_bool ?db ?x] =>
             let Hx := fresh "Hx" in
             destruct (Sql.as_bool db x) eqn:Hx; try discriminate Hb
         end.

Lemma update_frame_row db (m : gmap string json) n now (f : flag -> flag) :
  (forall x, name (f x) = name x /\ created_at (f x) = created_at x
             /\ updated_at (f x) = now) ->
  (forall x, m !! "description" = None -> description (f x) = description x) ->
  (forall x, m !! "is_enabled" = None -> is_enabled (f x) = is_enabled x) ->
  (forall x v, m !! "description" = Some v ->
               Sql.as_text db (Sql.VParam v) = Some (description (f x))) ->
  (forall x v, m !! "is_enabled" = Some v ->
               Sql.as_bool db (Sql.VParam v) = Some (is_enabled (f x))) ->
  forall t,
    Forall2 (update_frame db m n now) t
            (map (λ r, if Sql.has_name n r then f r else r) t).
Proof.
  intros Hk Hd He Hd' He' t. apply Forall2_map_same. intros x.
  destruct (Hk x) as (Hn & Hc & Hu).
  unfold update_frame. destruct (Sql.has_name n x) eqn:Hx.
  - apply has_name_true in Hx. repeat split; auto; intros; congruence.
  - apply has_name_false in Hx. repeat split; auto; intros; congruence.
Qed.

(** Take the summary [Hs] of a run apart, one case of it at a time. *)
Ltac summary_cases Hs :=
  repeat match type of Hs with
         | context [db_fault ?E ?c] => destruct (db_fault E c)
         | context [Sql.run ?db ?st ?ps ?now ?t] =>
             let Hrun := fresh "Hrun" in
             destruct (Sql.run db st ps now t) as [? | ?] eqn:Hrun
         | context [Sql.rowcount ?res =? 0] => destruct (Sql.rowcount res =? 0)
         end.

(** C9.  When an update returns 200, whatever the JSON values of the
    body and whatever the database makes of them, each row of the table
    keeps its name and its created_at; a row of another name is left as
    it was; in the rows of the name in the URL, a field the body does not
    supply keeps its value, a supplied field takes the value the database
    stores for the supplied one (a string sent as description and a
    boolean sent as is_enabled are stored as they are), and updated_at
    becomes the time of the statement. *)
Theorem update_flag_frame E h (m : gmap string json) n s p :
  let r := call (update_flag E (Request h (JObj m)) n) s in
  r.1 = Returns (p, 200) ->
  Forall2 (update_frame (db_engine E) m n (clock s)) (table s) (table r.2).
Proof.
  intros r H.
  destruct (m !! "description") as [vd |] eqn:Hd, (m !! "is_enabled") as [ve |] eqn:He.
  4: { destruct (update_flag_no_field_run E h m n s Hd He) as [msg Hno].
       subst r. rewrite Hno in H. discriminate H. }
  all: assert (Hs := update_flag_summary E h m n s);
    rewrite Hd, He in Hs;
    specialize (Hs ltac:(first [left; eexists; reflexivity | right; eexists; reflexivity]));
    fold r in Hs; cbv zeta in Hs; unfold update_outcome, rolled_back in Hs;
    cbn [supplied fst snd app] in Hs;
    rewrite ?parse_update_d, ?parse_update_e, ?parse_update_de in Hs;
    cbn [option_map] in Hs.
  all: summary_cases Hs; destruct Hs as (Hr1 & Ht & _);
    try (rewrite Hr1 in H; discriminate H).
  all: rewrite Ht.
  all: apply run_update_inv in Hrun as (f & v & n' & Hb & Hn & ->).
  all: bound_sets Hb.
  all: injection Hb as <- <-.
  all: cbn in Hn; injection Hn as <-.
  all: cbn [Sql.rows_after].
  all: apply update_frame_row; cbn -[Sql.as_text Sql.as_bool]; intros;
    repeat split; congruence.
Qed.

Lemma update_flag_frame_witness :
  let m : gmap string json := list_to_map [("is_enabled", JBool true)] in
  let m' : gmap string json :=
    list_to_map [("description", JNum 5); ("is_enabled", JStr "yes")] in
  let r := call (update_flag Ex.healthy (Request (Some "k") (JObj m)) "dark_mode") Ex.one in
  let r' := call (update_flag Ex.healthy (Request (Some "k") (JObj m')) "dark_mode") Ex.one in
  (r.1 = Returns (JsonRow (Some (Flag "dark_mode" "" true 7 10)), 200)
   /\ Forall2 (update_frame Ex.lenient m "dark_mode" 10) [Ex.dark_mode] (table r.2))
  /\ (r'.1 = Returns (JsonRow (Some (Flag "dark_mode" "5" true 7 10)), 200)
      /\ Forall2 (update_frame Ex.lenient m' "dark_mode" 10) [Ex.dark_mode] (table r'.2)).
Proof.
  intros m m' r r'.
  assert (H : r.1 = Returns (JsonRow (Some (Flag "dark_mode" "" true 7 10)), 200))
    by (vm_compute; reflexivity).
  assert (H' : r'.1 = Returns (JsonRow (Some (Flag "dark_mode" "5" true 7 10)), 200))
    by (vm_compute; reflexivity).
  split; (split; [assumption |]).
  - exact (update_flag_frame Ex.healthy (Some "k") m "dark_mode" Ex.one _ H).
  - exact (update_flag_frame Ex.healthy (Some "k") m' "dark_mode" Ex.one _ H').
Defined.

(** ** Keys the update does not recognize *)

Lemma updatable_d : only_updatable_columns_of (update_query ["description = %s"]).
Proof.
  eexists. split; [exact parse_update_d |]. cbn. intros c Hc. tauto.
Qed.

Lemma updatable_e : only_updatable_columns_of (update_query ["is_enabled = %s"]).
Proof.
  eexists. split; [exact parse_update_e |]. cbn. intros c Hc. tauto.
Qed.

Lemma updatable_de :
  only_updatable_columns_of (update_query ["description = %s"; "is_enabled = %s"]).
Proof.
  eexists. split; [exact parse_update_de |]. cbn. intros c Hc. tauto.
Qed.

Lemma only_updatable_one q l :
  only_updatable_columns_of q ->
  (forall q' ps, In (EvExecute q' ps) l -> q' = q) ->
  only_updatable_columns l.
Proof.
  intros Hq Hl q' ps Hin. rewrite (Hl q' ps Hin). exact Hq.
Qed.

(** The statements among the calls of a run of the update handler. *)
Ltac executed_only q :=
  let q' := fresh "q" in
  let ps := fresh "ps" in
  let Hin := fresh "Hin" in
  intros q' ps Hin; cbn in Hin;
  repeat (destruct Hin as [Hin | Hin]; try discriminate Hin);
  [injection Hin as <- _; reflexivity | contradiction].

(** C10.  For an update whose body is an object with at least one of
    [description] and [is_enabled], the other keys of the body have no
    effect: a body that agrees on the two recognized keys gives the same
    result and the same state.  The request is not refused with 400, and
    every statement it executes is an UPDATE that assigns no column other
    than description, is_enabled and updated_at. *)
Theorem update_flag_ignores_other_keys E h h' (m m' : gmap string json) n s :
  is_Some (m !! "description") \/ is_Some (m !! "is_enabled") ->
  m' !! "description" = m !! "description" ->
  m' !! "is_enabled" = m !! "is_enabled" ->
  let r := call (update_flag E (Request h (JObj m)) n) s in
  r = call (update_flag E (Request h' (JObj m')) n) s
  /\ (forall p, r.1 <> Returns (p, 400))
  /\ exists l, calls s r.2 l /\ only_updatable_columns l.
Proof.
  intros Hsome Hd He r.
  assert (Ht : Py.truthy (JObj m) = true)
    by (destruct Hsome as [[x Hx] | [x Hx]]; exact (truthy_obj_lookup _ _ _ Hx)).
  assert (Ht' : Py.truthy (JObj m') = true).
  { destruct Hsome as [[x Hx] | [x Hx]].
    - rewrite <- Hd in Hx. exact (truthy_obj_lookup _ _ _ Hx).
    - rewrite <- He in Hx. exact (truthy_obj_lookup _ _ _ Hx). }
  split.
  { subst r. unfold update_flag. unfold_m. cbn [body].
    rewrite !add_field_obj, Ht, Ht', Hd, He. reflexivity. }
  clear m' Hd He Ht'.
  assert (Hs := update_flag_summary E h m n s Hsome).
  fold r in Hs. cbv zeta in Hs. unfold update_outcome, rolled_back in Hs.
  destruct (m !! "description") as [vd |], (m !! "is_enabled") as [ve |].
  4: exfalso; destruct Hsome as [[x Hx] | [x Hx]]; discriminate Hx.
  all: cbn [supplied fst snd app] in Hs;
    rewrite ?parse_update_d, ?parse_update_e, ?parse_update_de in Hs;
    cbn [option_map] in Hs.
  all: summary_cases Hs; destruct Hs as (Hr1 & _ & _ & Hcalls).
  all: (split; [intros p Hp; rewrite Hr1 in Hp; discriminate Hp |]).
  all: eexists; (split; [exact Hcalls |]).
  all: first
         [ apply (only_updatable_one _ _ updatable_d); executed_only tt
         | apply (only_updatable_one _ _ updatable_e); executed_only tt
         | apply (only_updatable_one _ _ updatable_de); executed_only tt
         | intros q ps Hin; cbn in Hin;
           repeat (destruct Hin as [Hin | Hin]; try discriminate Hin); contradiction ].
Qed.

Lemma update_flag_ignores_other_keys_witness :
  let m : gmap string json :=
    list_to_map [("is_enabled", JBool true); ("name", JStr "x"); ("owner", JNum 3)] in
  let m' : gmap string json := list_to_map [("is_enabled", JBool true)] in
  let r := call (update_flag Ex.healthy (Request (Some "k") (JObj m)) "dark_mode") Ex.one in
  r = call (update_flag Ex.healthy (Request None (JObj m')) "dark_mode") Ex.one
  /\ (forall p, r.1 <> Returns (p, 400))
  /\ exists l, calls Ex.one r.2 l /\ only_updatable_columns l.
Proof.
  intros m m'.
  assert (Hs : is_Some (m !! "description") \/ is_Some (m !! "is_enabled"))
    by (right; exists (JBool true); reflexivity).
  assert (Hd : m' !! "description" = m !! "description") by reflexivity.
  assert (He : m' !! "is_enabled" = m !! "is_enabled") by reflexivity.
  exact (update_flag_ignores_other_keys Ex.healthy (Some "k") None m m' "dark_mode"
           Ex.one Hs Hd He).
Defined.

(** * Further properties of the handlers *)

(** ** Every path of create, delete and the two reads *)

(** Run a handler on a path whose faults and statement result are
    hypotheses. *)
Ltac handler_path :=
  unfold ends, calls, create_flag, delete_flag, get_flag, get_flags; unfold_m;
  cbn [body];
  repeat match goal with
         | Hf : db_fault _ _ = _ |- _ => rewrite !Hf; clear Hf
         | Hg : Py.truthy _ = _ |- _ => rewrite !Hg; clear Hg
         | Hl : _ !! _ = _ |- _ => rewrite !Hl; clear Hl
         end;
  rewrite ?parse_insert, ?parse_delete, ?parse_select_all, ?parse_select_by_name;
  cbn -[Sql.run];
  repeat match goal with
         | Hf : Sql.run _ _ _ _ _ = _ |- _ => rewrite !Hf; clear Hf
         end;
  cbn; repeat split; first [reflexivity | lia].

Lemma delete_flag_summary E n s :
  delete_outcome E n s (call (delete_flag E n) s).
Proof.
  destruct s. unfold delete_outcome, rolled_back. cbn [table in_use clock].
  destruct (db_fault E CRollback) eqn:Hr.
  all: destruct (db_fault E CGetconn) eqn:Hg; [handler_path |].
  all: destruct (db_fault E CCursor) eqn:Hc; [handler_path |].
  all: destruct (db_fault E CExecute) eqn:Hx; [handler_path |].
  all: destruct (existsb (Sql.has_name n) table0) eqn:Hn;
    [ destruct (run_delete_present (db_engine E) n clock0 table0 Hn) as [k Hrun];
      destruct (db_fault E CCommit) eqn:Hk; handler_path
    | pose proof (run_delete_absent (db_engine E) n clock0 table0 Hn) as Hrun;
      handler_path ].
Qed.

Lemma run_select_by_name db n now (t : list flag) :
  Sql.run db Sql.SSelectByName [JStr n] now t
  = inr (Sql.Result t (filter (λ f, Sql.has_name n f = true) t)
                    (Z.of_nat (length (filter (λ f, Sql.has_name n f = true) t)))).
Proof. reflexivity. Qed.

Lemma run_select_all db now (t : list flag) :
  Sql.run db Sql.SSelectAll [] now t
  = inr (Sql.Result t (Sql.order_by_name db t)
                    (Z.of_nat (length (Sql.order_by_name db t)))).
Proof. reflexivity. Qed.

Lemma get_flag_summary E n s :
  read_outcome E (EvExecute Sql.select_by_name_text [JStr n])
    (get_flag_response (filter (λ f, Sql.has_name n f = true) (table s)))
    s (call (get_flag E n) s).
Proof.
  destruct s. unfold read_outcome. cbn [table in_use clock].
  pose proof (run_select_by_name (db_engine E) n clock0 table0) as Hrun.
  destruct (filter (λ f, Sql.has_name n f = true) table0) as [| f hit].
  all: destruct (db_fault E CGetconn) eqn:Hg; [handler_path |].
  all: destruct (db_fault E CCursor) eqn:Hc; [handler_path |].
  all: destruct (db_fault E CExecute) eqn:Hx; [handler_path |].
  all: destruct (db_fault E CFetch) eqn:Hf; handler_path.
Qed.

Lemma get_flags_summary E s :
  read_outcome E (EvExecute Sql.select_all_text [])
    (JsonRows (Sql.order_by_name (db_engine E) (table s)), 200)
    s (call (get_flags E) s).
Proof.
  destruct s. unfold read_outcome. cbn [table in_use clock].
  pose proof (run_select_all (db_engine E) clock0 table0) as Hrun.
  generalize dependent (Sql.order_by_name (db_engine E) table0). intros sorted Hrun.
  destruct (db_fault E CGetconn) eqn:Hg; [handler_path |].
  destruct (db_fault E CCursor) eqn:Hc; [handler_path |].
  destruct (db_fault E CExecute) eqn:Hx; [handler_path |].
  destruct (db_fault E CFetch) eqn:Hf; handler_path.
Qed.

Ltac create_path Hn Ht :=
  unfold ends, calls, create_flag; unfold_m; cbn [body];
  rewrite Ht; cbn [negb Py.contains Py.getitem Py.get];
  rewrite Hn;
  repeat match goal with
         | Hf : db_fault _ _ = _ |- _ => rewrite !Hf; clear Hf
         end;
  rewrite ?parse_insert;
  cbn -[Sql.run];
  repeat match goal with
         | Hf : Sql.run ?db ?st ?ps ?now ?t = _
           |- context [Sql.run ?db' ?st' ?ps' ?now' ?t'] =>
             change (Sql.run db' st' ps' now' t') with (Sql.run db st ps now t);
             rewrite !Hf; clear Hf
         end;
  cbn; repeat split; first [reflexivity | lia].

Lemma create_flag_summary E h (m : gmap string json) nm s :
  m !! "name" = Some nm ->
  create_outcome E nm
    [nm; default (JStr "") (m !! "description"); default (JBool false) (m !! "is_enabled")]
    s (call (create_flag E (Request h (JObj m))) s).
Proof.
  intros Hn.
  assert (Ht : Py.truthy (JObj m) = true) by exact (truthy_obj_lookup _ _ _ Hn).
  destruct s. unfold create_outcome, rolled_back. cbn [table in_use clock].
  destruct (db_fault E CRollback) eqn:Hr.
  all: destruct (db_fault E CGetconn) eqn:Hg; [create_path Hn Ht |].
  all: destruct (db_fault E CCursor) eqn:Hc; [create_path Hn Ht |].
  all: destruct (db_fault E CExecute) eqn:Hx; [create_path Hn Ht |].
  all: match goal with
       | |- context [Sql.run ?db ?st ?ps ?now ?t] =>
           destruct (Sql.run db st ps now t) as [ex | res] eqn:Hrun
       end.
  all: try (destruct ex; create_path Hn Ht; fail).
  all: destruct (db_fault E CFetch) eqn:Hf; [create_path Hn Ht |].
  all: destruct (db_fault E CCommit) eqn:Hk; create_path Hn Ht.
Qed.
(** ** The read handlers *)

(** Take a summary [Hs] that is a chain of tests on the faults apart. *)
Ltac fault_cases Hs :=
  repeat match type of Hs with
         | context [db_fault ?E ?c] => destruct (db_fault E c)
         end.

(** X1.  Whatever fails, the list handler and the get handler leave the
    table as it was, and neither commits nor rolls back. *)
Theorem read_handlers_leave_table E n s :
  let l := call (get_flags E) s in
  let g := call (get_flag E n) s in
  (table l.2 = table s
   /\ exists cl, calls s l.2 cl
                 /\ existsb is_commit cl = false /\ existsb is_rollback cl = false)
  /\ (table g.2 = table s
      /\ exists cg, calls s g.2 cg
                    /\ existsb is_commit cg = false /\ existsb is_rollback cg = false).
Proof.
  intros l g. split.
  - assert (Hs := get_flags_summary E s). fold l in Hs. unfold read_outcome in Hs.
    fault_cases Hs; destruct Hs as (_ & Ht & _ & Hc);
      (split; [exact Ht | eexists; split; [exact Hc | split; reflexivity]]).
  - assert (Hs := get_flag_summary E n s). fold g in Hs. unfold read_outcome in Hs.
    fault_cases Hs; destruct Hs as (_ & Ht & _ & Hc);
      (split; [exact Ht | eexists; split; [exact Hc | split; reflexivity]]).
Qed.

Lemma filter_head_named n (t : list flag) f hit :
  filter (λ r, Sql.has_name n r = true) t = f :: hit ->
  In f t /\ name f = n.
Proof.
  intros H.
  assert (Hin : f ∈ filter (λ r, Sql.has_name n r = true) t)
    by (rewrite H; apply list_elem_of_here).
  apply list_elem_of_filter in Hin as [Hn Hin].
  split; [apply list_elem_of_In, Hin | apply has_name_true, Hn].
Qed.

(** X2.  On a database that does not fail, the get handler returns 404
    when no row has the name, and otherwise 200 with a row of the table
    that has the name; in both cases the connection is given back. *)
Theorem get_flag_finds_row E n s :
  (forall c, db_fault E c = false) ->
  let g := call (get_flag E n) s in
  in_use g.2 = in_use s
  /\ (existsb (Sql.has_name n) (table s) = false ->
      g.1 = Returns (JsonError "Flag não encontrada", 404))
  /\ (existsb (Sql.has_name n) (table s) = true ->
      exists f, g.1 = Returns (JsonRow (Some f), 200) /\ In f (table s) /\ name f = n).
Proof.
  intros HE g.
  assert (Hs := get_flag_summary E n s). fold g in Hs. unfold read_outcome in Hs.
  rewrite !HE in Hs. destruct Hs as (Hr & _ & Hu & _).
  split; [exact Hu |]. split.
  - intros Habs. rewrite (filter_absent _ _ Habs) in Hr. exact Hr.
  - intros Hpres.
    destruct (filter (λ r, Sql.has_name n r = true) (table s)) as [| f hit] eqn:Hf.
    + pose proof (filter_present _ _ Hpres) as Hk. rewrite Hf in Hk. discriminate Hk.
    + exists f. split; [exact Hr | exact (filter_head_named _ _ _ _ Hf)].
Qed.

Lemma get_flag_finds_row_witness :
  let g := call (get_flag Ex.healthy "dark_mode") Ex.one in
  let g' := call (get_flag Ex.healthy "ghost") Ex.one in
  g'.1 = Returns (JsonError "Flag não encontrada", 404)
  /\ exists f, g.1 = Returns (JsonRow (Some f), 200)
               /\ In f [Ex.dark_mode] /\ name f = "dark_mode".
Proof.
  intros g g'. split.
  - exact (proj1 (proj2 (get_flag_finds_row Ex.healthy "ghost" Ex.one (λ _, eq_refl)))
             eq_refl).
  - exact (proj2 (proj2 (get_flag_finds_row Ex.healthy "dark_mode" Ex.one
                           (λ _, eq_refl))) eq_refl).
Defined.

Lemma insert_sorted_perm db r (l : list flag) : Sql.insert_sorted db r l ≡ₚ r :: l.
Proof.
  induction l as [| x l IH]; cbn; [reflexivity |].
  destruct (Sql.name_le db (name r) (name x)); [reflexivity |].
  rewrite IH. apply Permutation_swap.
Qed.

Lemma order_by_name_perm db (l : list flag) : Sql.order_by_name db l ≡ₚ l.
Proof.
  induction l as [| x l IH]; cbn; [reflexivity |].
  rewrite insert_sorted_perm. rewrite IH. reflexivity.
Qed.

Lemma insert_sorted_hd db a r (l : list flag) :
  Sql.name_le db (name a) (name r) = true ->
  HdRel (λ a b, Sql.name_le db (name a) (name b) = true) a l ->
  HdRel (λ a b, Sql.name_le db (name a) (name b) = true) a (Sql.insert_sorted db r l).
Proof.
  intros Har Hl. destruct l as [| x l]; cbn.
  - constructor. exact Har.
  - destruct (Sql.name_le db (name r) (name x)).
    + constructor. exact Har.
    + constructor. inversion Hl. assumption.
Qed.

Lemma insert_sorted_sorted db r (l : list flag) :
  total_order db ->
  sorted_by_name db l -> sorted_by_name db (Sql.insert_sorted db r l).
Proof.
  intros Htot. unfold sorted_by_name. induction l as [| x l IH]; cbn; intros Hs.
  - repeat constructor.
  - destruct (Sql.name_le db (name r) (name x)) eqn:Hrx.
    + constructor; [exact Hs | constructor; exact Hrx].
    + inversion Hs as [| ? ? Hs' Hhd]; subst.
      constructor; [apply IH, Hs' |].
      apply insert_sorted_hd; [| exact Hhd].
      destruct (Htot (name x) (name r)) as [H | H]; [exact H | congruence].
Qed.

Lemma order_by_name_sorted db (l : list flag) :
  total_order db -> sorted_by_name db (Sql.order_by_name db l).
Proof.
  intros Htot. induction l as [| x l IH]; cbn.
  - constructor.
  - apply insert_sorted_sorted; [exact Htot | exact IH].
Qed.

(** X3.  On a database that does not fail, the list handler returns 200
    with the rows of the table, each once, in ascending order of name
    (in the order of the database, which puts any two names one way or
    the other); an empty table gives 200 with no rows. *)
Theorem get_flags_sorted_permutation E s :
  (forall c, db_fault E c = false) ->
  total_order (db_engine E) ->
  let r := call (get_flags E) s in
  exists l, r.1 = Returns (JsonRows l, 200)
            /\ l ≡ₚ table s /\ sorted_by_name (db_engine E) l
            /\ (table s = [] -> l = [])
            /\ in_use r.2 = in_use s.
Proof.
  intros HE Htot r.
  assert (Hs := get_flags_summary E s). fold r in Hs. unfold read_outcome in Hs.
  rewrite !HE in Hs. destruct Hs as (Hr & _ & Hu & _).
  exists (Sql.order_by_name (db_engine E) (table s)).
  split; [exact Hr |]. split; [apply order_by_name_perm |].
  split; [apply order_by_name_sorted, Htot |]. split; [| exact Hu].
  intros ->. reflexivity.
Qed.

Lemma get_flags_sorted_permutation_witness :
  let s := State Unbound Unbound [Flag "b" "" true 1 2; Flag "a" "x" false 3 3]
                 None 0 10 [] (-1) [] in
  exists l, (call (get_flags Ex.healthy) s).1 = Returns (JsonRows l, 200)
            /\ l ≡ₚ table s /\ sorted_by_name Ex.lenient l
            /\ (table s = [] -> l = [])
            /\ in_use (call (get_flags Ex.healthy) s).2 = in_use s.
Proof.
  intros s.
  exact (get_flags_sorted_permutation Ex.healthy s (λ _, eq_refl)
           (λ a b, String.leb_total a b)).
Defined.

(** ** What a request can do to the table and to the pool *)

(** The end of a run that stops before the first call to the pool. *)
Ltac stops_before :=
  split; [reflexivity | intros p Hp; discriminate Hp].

(** A create request whose body is not an object with the key [name]
    ends before the first call to the pool, and not with 201. *)
Lemma create_flag_before_db E h (b : sent) s :
  (forall m, b = Json (JObj m) -> m !! "name" = None) ->
  (call (create_flag E (Request h b)) s).2 = s
  /\ forall p, (call (create_flag E (Request h b)) s).1 <> Returns (p, 201).
Proof.
  intros Hb. destruct s. unfold create_flag. unfold_m. cbn [body].
  destruct b as [| | [| x | z | t | [| x l] | m]]; cbn.
  - stops_before.
  - stops_before.
  - stops_before.
  - destruct x; stops_before.
  - destruct (z =? 0); stops_before.
  - destruct (String.eqb t ""); cbn; [stops_before |].
    destruct (Py.substring_of "name" t); cbn; stops_before.
  - stops_before.
  - destruct (Py.is_str "name" x || existsb (Py.is_str "name") l); cbn; stops_before.
  - rewrite (Hb m eq_refl). destruct (bool_decide (m = ∅)); cbn; stops_before.
Qed.

(** An update request whose body is not an object ends before the first
    call to the pool, and not with 200. *)
Lemma update_flag_before_db E h (b : sent) n s :
  (forall m, b <> Json (JObj m)) ->
  (call (update_flag E (Request h b) n) s).2 = s
  /\ forall p, (call (update_flag E (Request h b) n) s).1 <> Returns (p, 200).
Proof.
  intros Hb. destruct s. unfold update_flag, add_field. unfold_m. cbn [body].
  destruct b as [| | [| x | z | t | [| x l] | m]]; cbn.
  - stops_before.
  - stops_before.
  - stops_before.
  - destruct x; stops_before.
  - destruct (z =? 0); stops_before.
  - destruct (String.eqb t ""); cbn; [stops_before |].
    destruct (Py.substring_of "description" t); cbn; [stops_before |].
    destruct (Py.substring_of "is_enabled" t); cbn; stops_before.
  - stops_before.
  - destruct (Py.is_str "description" x || existsb (Py.is_str "description") l); cbn;
      [stops_before |].
    destruct (Py.is_str "is_enabled" x || existsb (Py.is_str "is_enabled") l); cbn;
      stops_before.
  - exfalso. exact (Hb m eq_refl).
Qed.

Lemma run_insert_inv db ps now (t : list flag) res :
  Sql.run db Sql.SInsert ps now t = inr res ->
  exists f,
    res = Sql.Result (t ++ [f])%list [f] 1
    /\ existsb (Sql.has_name (name f)) t = false
    /\ created_at f = now /\ updated_at f = now.
Proof.
  intros H. cbn -[Sql.as_text Sql.as_bool] in H.
  destruct ps as [| vn [| vd [| ve [|]]]]; try discriminate H.
  destruct (Sql.as_text db (Sql.VParam vn)) as [n' |]; [| discriminate H].
  destruct (Sql.as_text db (Sql.VParam vd)) as [d' |]; [| discriminate H].
  destruct (Sql.as_bool db (Sql.VParam ve)) as [e' |]; [| discriminate H].
  destruct (existsb (Sql.has_name n') t) eqn:Hfresh; [discriminate H |].
  injection H as <-. eexists. repeat split. exact Hfresh.
Qed.

(** Take a summary [Hs] apart, keeping what each test came to. *)
Ltac summary_paths Hs :=
  repeat match type of Hs with
         | context [db_fault ?E ?c] => destruct (db_fault E c)
         | context [Sql.run ?db ?st ?ps ?now ?t] =>
             let Hrun := fresh "Hrun" in
             destruct (Sql.run db st ps now t) as [[] | ?] eqn:Hrun
         | context [Sql.rowcount ?res =? 0] =>
             let Hrc := fresh "Hrc" in
             destruct (Sql.rowcount res =? 0) eqn:Hrc
         | context [existsb ?f ?t] => destruct (existsb f t)
         end.

(** What the create handler does to the table and to the pool. *)
Lemma create_flag_effect E req s :
  let c := call (create_flag E req) s in
  in_use c.2 = in_use s
  /\ ((table c.2 = table s /\ forall p, c.1 <> Returns (p, 201))
      \/ exists f,
           c.1 = Returns (JsonRow (Some f), 201)
           /\ table c.2 = (table s ++ [f])%list
           /\ existsb (Sql.has_name (name f)) (table s) = false
           /\ created_at f = clock s /\ updated_at f = clock s).
Proof.
  intros c. destruct req as [h b].
  assert (Hb : (forall m, b = Json (JObj m) -> m !! "name" = None)
               \/ exists m nm, b = Json (JObj m) /\ m !! "name" = Some nm).
  { destruct b as [| | [| | | | | m]]; try (left; intros m' Hm; discriminate Hm).
    destruct (m !! "name") as [nm |] eqn:Hn; [right; eauto |].
    left. intros m' Hm. injection Hm as <-. exact Hn. }
  destruct Hb as [Hb | (m & nm & -> & Hn)].
  - destruct (create_flag_before_db E h b s Hb) as [H2 H1]. fold c in H2, H1.
    rewrite H2. split; [reflexivity | left; split; [reflexivity | exact H1]].
  - assert (Hs := create_flag_summary E h m nm s Hn). fold c in Hs.
    unfold create_outcome, rolled_back in Hs. cbv zeta in Hs.
    summary_paths Hs; destruct Hs as (Hr & Ht & Hu & _); (split; [exact Hu |]);
      try (left; split; [exact Ht | intros p Hp; rewrite Hr in Hp; discriminate Hp]).
    all: right; apply run_insert_inv in Hrun as (f & -> & Hfresh & Hc & Hup).
    all: exists f; cbn in Hr, Ht; auto.
Qed.

(** What the delete handler does to the table. *)
Lemma delete_flag_effect E n s :
  let d := call (delete_flag E n) s in
  table d.2 = table s
  \/ (d.1 = Returns (NoBody, 204)
      /\ table d.2 = filter (λ f, Sql.has_name n f = false) (table s)).
Proof.
  intros d. assert (Hs := delete_flag_summary E n s). fold d in Hs.
  unfold delete_outcome, rolled_back in Hs. cbv zeta in Hs.
  summary_paths Hs; destruct Hs as (Hr & Ht & _); auto.
Qed.

(** What the update handler does to the table: when it returns 200, the
    row it returns is the first of the rows of that name, rewritten, and
    every row of that name is rewritten in the same way. *)
Lemma update_flag_effect E req n s :
  let u := call (update_flag E req n) s in
  (table u.2 = table s /\ forall p, u.1 <> Returns (p, 200))
  \/ exists g x hit,
       u.1 = Returns (JsonRow (Some (g x)), 200)
       /\ filter (λ r, Sql.has_name n r = true) (table s) = x :: hit
       /\ table u.2 = map (λ r, if Sql.has_name n r then g r else r) (table s)
       /\ forall y, name (g y) = name y /\ created_at (g y) = created_at y
                    /\ updated_at (g y) = clock s.
Proof.
  intros u. destruct req as [h b].
  assert (Hb : (forall m, b <> Json (JObj m)) \/ exists m, b = Json (JObj m)).
  { destruct b as [| | []]; try (left; intros m' Hm; discriminate Hm). right. eauto. }
  destruct Hb as [Hb | [m ->]].
  { left. destruct (update_flag_before_db E h b n s Hb) as [H2 H1]. fold u in H2, H1.
    rewrite H2. split; [reflexivity | exact H1]. }
  destruct (m !! "description") as [vd |] eqn:Hd, (m !! "is_enabled") as [ve |] eqn:He.
  4: { left. destruct (update_flag_no_field_run E h m n s Hd He) as [msg Hno].
       subst u. rewrite Hno. split; [reflexivity | intros p Hp; discriminate Hp]. }
  all: assert (Hs := update_flag_summary E h m n s);
    rewrite Hd, He in Hs;
    specialize (Hs ltac:(first [left; eexists; reflexivity | right; eexists; reflexivity]));
    fold u in Hs; cbv zeta in Hs; unfold update_outcome, rolled_back in Hs;
    cbn [supplied fst snd app] in Hs;
    rewrite ?parse_update_d, ?parse_update_e, ?parse_update_de in Hs;
    cbn [option_map] in Hs.
  all: summary_paths Hs; destruct Hs as (Hr1 & Ht & _);
    try (left; split; [exact Ht | intros p Hp; rewrite Hr1 in Hp; discriminate Hp]).
  all: right.
  all: apply run_update_inv in Hrun as (f & v & n' & Hb & Hn & ->).
  all: bound_sets Hb.
  all: injection Hb as Hfun Hv; subst v f.
  all: cbn in Hn; injection Hn as <-.
  all: cbn [Sql.rowcount Sql.returned Sql.rows_after] in Hrc, Hr1, Ht.
  all: destruct (filter (λ r, Sql.has_name n r = true) (table s)) as [| x hit] eqn:Hf;
    [discriminate Hrc |].
  all: eexists; exists x, hit; split; [exact Hr1 |]; split; [reflexivity |];
    split; [exact Ht |].
  all: intros y; cbn; auto.
Qed.

(** X4.  Create, update and delete are all or nothing, whatever the
    request and whatever fails: the table is left as it was unless the
    handler returns its success status, 201 with the row it appended, 200,
    or 204 with the rows of that name removed. *)
Theorem writes_are_all_or_nothing E req n s :
  let c := call (create_flag E req) s in
  let u := call (update_flag E req n) s in
  let d := call (delete_flag E n) s in
  (table c.2 = table s
   \/ exists f, c.1 = Returns (JsonRow (Some f), 201)
                /\ table c.2 = (table s ++ [f])%list)
  /\ (table u.2 = table s \/ exists p, u.1 = Returns (p, 200))
  /\ (table d.2 = table s
      \/ (d.1 = Returns (NoBody, 204)
          /\ table d.2 = filter (λ f, Sql.has_name n f = false) (table s))).
Proof.
  intros c u d. split; [| split].
  - destruct (create_flag_effect E req s) as [_ [[H _] | (f & Hr & Ht & _)]];
      [left; exact H | right; exists f; auto].
  - destruct (update_flag_effect E req n s) as [[H _] | (g & x & hit & Hr & _)];
      [left; exact H | right; eexists; exact Hr].
  - exact (delete_flag_effect E n s).
Qed.

(** X5.  The create handler never leaks a connection: whatever the
    request and whatever fails, the rollback included, the pool has as
    many connections checked out after the run as before; and a request
    whose body is a JSON object ends in a response, never in an exception,
    unless the rollback itself fails. *)
Theorem create_flag_never_leaks E h (b : sent) s :
  let c := call (create_flag E (Request h b)) s in
  in_use c.2 = in_use s
  /\ (forall m, b = Json (JObj m) -> db_fault E CRollback = false ->
      exists resp, c.1 = Returns resp).
Proof.
  intros c. split; [exact (proj1 (create_flag_effect E (Request h b) s)) |].
  intros m -> Hr. destruct (m !! "name") as [nm |] eqn:Hn.
  - assert (Hs := create_flag_summary E h m nm s Hn). fold c in Hs.
    unfold create_outcome, rolled_back in Hs. cbv zeta in Hs. rewrite Hr in Hs.
    summary_paths Hs; destruct Hs as (Hres & _); eauto.
  - subst c. destruct s. unfold create_flag. unfold_m. cbn. rewrite Hn.
    destruct (bool_decide (m = ∅)); cbn; eauto.
Qed.

Lemma create_flag_never_leaks_witness :
  let c := call (create_flag Ex.broken_cursor (Ex.req (Ex.obj [("name", JStr "beta")])))
                Ex.one in
  in_use c.2 = 0 /\ exists resp, c.1 = Returns resp.
Proof.
  intros c.
  destruct (create_flag_never_leaks Ex.broken_cursor (Some "k")
              (Ex.obj [("name", JStr "beta")]) Ex.one) as [Hu Hr].
  split; [exact Hu | exact (Hr _ eq_refl eq_refl)].
Defined.

(** X6.  The leak needs a failing [conn.cursor()]: when cursor creation
    does not fail, the list, get, update and delete handlers leave the
    pool with as many connections checked out as before, whatever the
    request and whatever else fails. *)
Theorem pool_balanced_unless_cursor_fails E req n s :
  db_fault E CCursor = false ->
  in_use (call (get_flags E) s).2 = in_use s
  /\ in_use (call (get_flag E n) s).2 = in_use s
  /\ in_use (call (update_flag E req n) s).2 = in_use s
  /\ in_use (call (delete_flag E n) s).2 = in_use s.
Proof.
  intros Hc. split; [| split; [| split]].
  - assert (Hs := get_flags_summary E s). unfold read_outcome in Hs. rewrite Hc in Hs.
    fault_cases Hs; destruct Hs as (_ & _ & Hu & _); exact Hu.
  - assert (Hs := get_flag_summary E n s). unfold read_outcome in Hs. rewrite Hc in Hs.
    fault_cases Hs; destruct Hs as (_ & _ & Hu & _); exact Hu.
  - destruct req as [h b].
    assert (Hb : (forall m, b <> Json (JObj m)) \/ exists m, b = Json (JObj m)).
    { destruct b as [| | []]; try (left; intros m' Hm; discriminate Hm). right. eauto. }
    destruct Hb as [Hb | [m ->]].
    { rewrite (proj1 (update_flag_before_db E h b n s Hb)). reflexivity. }
    destruct (m !! "description") as [vd |] eqn:Hd, (m !! "is_enabled") as [ve |] eqn:He.
    4: { destruct (update_flag_no_field_run E h m n s Hd He) as [msg Hno].
         rewrite Hno. reflexivity. }
    all: assert (Hs := update_flag_summary E h m n s);
      rewrite Hd, He in Hs;
      specialize (Hs ltac:(first [left; eexists; reflexivity
                                 | right; eexists; reflexivity]));
      cbv zeta in Hs; unfold update_outcome, rolled_back in Hs; rewrite Hc in Hs;
      cbn [supplied fst snd app] in Hs;
      rewrite ?parse_update_d, ?parse_update_e, ?parse_update_de in Hs;
      cbn [option_map] in Hs.
    all: summary_cases Hs; destruct Hs as (_ & _ & Hu & _); exact Hu.
  - assert (Hs := delete_flag_summary E n s). unfold delete_outcome, rolled_back in Hs.
    cbv zeta in Hs. rewrite Hc in Hs.
    summary_paths Hs; destruct Hs as (_ & _ & Hu & _); exact Hu.
Qed.

Lemma pool_balanced_unless_cursor_fails_witness :
  let E := Env "http://auth" Ex.auth
               (λ c, match c with CExecute | CCommit | CRollback => true | _ => false end)
               Ex.lenient in
  let req := Ex.req (Ex.obj [("description", JStr "x")]) in
  in_use (call (get_flags E) Ex.one).2 = 0
  /\ in_use (call (get_flag E "dark_mode") Ex.one).2 = 0
  /\ in_use (call (update_flag E req "dark_mode") Ex.one).2 = 0
  /\ in_use (call (delete_flag E "dark_mode") Ex.one).2 = 0.
Proof.
  intros E req.
  exact (pool_balanced_unless_cursor_fails E req "dark_mode" Ex.one eq_refl).
Defined.

(** X7.  When [pool.getconn()] fails, the create handler answers 500 with
    the failure, while the list, get, update and delete handlers end in
    [UnboundLocalError] instead of the 500 of their except clause; in all
    five nothing but [getconn] is called and no connection is held. *)
Theorem getconn_failure_outcomes E h (m : gmap string json) nm n s :
  db_fault E CGetconn = true ->
  m !! "name" = Some nm ->
  is_Some (m !! "description") \/ is_Some (m !! "is_enabled") ->
  let req := Request h (JObj m) in
  ends s (call (create_flag E req) s) (Returns (internal_error PoolTimeout))
       (table s) (in_use s) [EvGetconn]
  /\ ends s (call (get_flags E) s) (Raises UnboundLocalError)
          (table s) (in_use s) [EvGetconn]
  /\ ends s (call (get_flag E n) s) (Raises UnboundLocalError)
          (table s) (in_use s) [EvGetconn]
  /\ ends s (call (update_flag E req n) s) (Raises UnboundLocalError)
          (table s) (in_use s) [EvGetconn]
  /\ ends s (call (delete_flag E n) s) (Raises UnboundLocalError)
          (table s) (in_use s) [EvGetconn].
Proof.
  intros Hg Hn Hsome req. subst req. split; [| split; [| split; [| split]]].
  - assert (Hs := create_flag_summary E h m nm s Hn). unfold create_outcome in Hs.
    cbv zeta in Hs. rewrite Hg in Hs. exact Hs.
  - assert (Hs := get_flags_summary E s). unfold read_outcome in Hs.
    rewrite Hg in Hs. exact Hs.
  - assert (Hs := get_flag_summary E n s). unfold read_outcome in Hs.
    rewrite Hg in Hs. exact Hs.
  - assert (Hs := update_flag_summary E h m n s Hsome). cbv zeta in Hs.
    unfold update_outcome in Hs. rewrite Hg in Hs. exact Hs.
  - assert (Hs := delete_flag_summary E n s). unfold delete_outcome in Hs.
    cbv zeta in Hs. rewrite Hg in Hs. exact Hs.
Qed.

Lemma getconn_failure_outcomes_witness :
  let E := Env "http://auth" Ex.auth
               (λ c, match c with CGetconn => true | _ => false end) Ex.lenient in
  let m : gmap string json :=
    list_to_map [("name", JStr "beta"); ("is_enabled", JBool true)] in
  let req := Request (Some "k") (JObj m) in
  ends Ex.one (call (create_flag E req) Ex.one) (Returns (internal_error PoolTimeout))
       [Ex.dark_mode] 0 [EvGetconn]
  /\ ends Ex.one (call (get_flags E) Ex.one) (Raises UnboundLocalError)
          [Ex.dark_mode] 0 [EvGetconn]
  /\ ends Ex.one (call (get_flag E "beta") Ex.one) (Raises UnboundLocalError)
          [Ex.dark_mode] 0 [EvGetconn]
  /\ ends Ex.one (call (update_flag E req "beta") Ex.one) (Raises UnboundLocalError)
          [Ex.dark_mode] 0 [EvGetconn]
  /\ ends Ex.one (call (delete_flag E "beta") Ex.one) (Raises UnboundLocalError)
          [Ex.dark_mode] 0 [EvGetconn].
Proof.
  intros E m req.
  assert (Hn : m !! "name" = Some (JStr "beta")) by reflexivity.
  assert (Hs : is_Some (m !! "description") \/ is_Some (m !! "is_enabled"))
    by (right; exists (JBool true); reflexivity).
  exact (getconn_failure_outcomes E (Some "k") m (JStr "beta") "beta" Ex.one
           eq_refl Hn Hs).
Defined.
(** ** Invariants of the table *)

Lemma read_table E n s :
  table (call (get_flags E) s).2 = table s /\ table (call (get_flag E n) s).2 = table s.
Proof.
  split.
  - assert (Hs := get_flags_summary E s). unfold read_outcome in Hs.
    fault_cases Hs; destruct Hs as (_ & Ht & _); exact Ht.
  - assert (Hs := get_flag_summary E n s). unfold read_outcome in Hs.
    fault_cases Hs; destruct Hs as (_ & Ht & _); exact Ht.
Qed.

Lemma fresh_not_in n (t : list flag) :
  existsb (Sql.has_name n) t = false -> ~ In n (map name t).
Proof.
  induction t as [| x t IH]; cbn; intros H; [tauto |].
  apply orb_false_iff in H as [Hx Ht]. intros [Heq | Hin].
  - apply has_name_false in Hx. congruence.
  - exact (IH Ht Hin).
Qed.

Lemma unique_names_snoc (t : list flag) f :
  unique_names t -> ~ In (name f) (map name t) -> unique_names (t ++ [f]).
Proof.
  unfold unique_names. induction t as [| x t IH]; cbn; intros Hnd Hf.
  - constructor; [apply not_elem_of_nil | constructor].
  - apply NoDup_cons in Hnd as [Hx Hnd]. apply NoDup_cons. split.
    + rewrite map_app. cbn. intros Hin. apply list_elem_of_In, in_app_or in Hin.
      destruct Hin as [Hin | [Heq | []]].
      * apply Hx, list_elem_of_In, Hin.
      * apply Hf. left. congruence.
    + apply IH; [exact Hnd | tauto].
Qed.

Lemma map_name_update n (g : flag -> flag) (t : list flag) :
  (forall x, name (g x) = name x) ->
  map name (map (λ r, if Sql.has_name n r then g r else r) t) = map name t.
Proof.
  intros Hg. induction t as [| x t IH]; cbn; [reflexivity |].
  rewrite IH. destruct (Sql.has_name n x); [rewrite Hg |]; reflexivity.
Qed.

Lemma unique_names_filter (P : flag -> Prop) `{!forall x, Decision (P x)} (t : list flag) :
  unique_names t -> unique_names (filter P t).
Proof.
  unfold unique_names. induction t as [| x t IH]; intros Hnd; [exact Hnd |].
  cbn in Hnd. apply NoDup_cons in Hnd as [Hx Hnd].
  rewrite filter_cons. destruct (decide (P x)); [| exact (IH Hnd)].
  cbn. apply NoDup_cons. split; [| exact (IH Hnd)].
  intros Hin. apply Hx. apply list_elem_of_In in Hin. apply list_elem_of_In.
  apply in_map_iff in Hin as (y & Hy & Hin). apply in_map_iff. exists y.
  split; [exact Hy |]. apply list_elem_of_In. apply list_elem_of_In in Hin.
  apply list_elem_of_filter in Hin. tauto.
Qed.

(** X8.  No handler breaks the uniqueness of names: when no two rows of
    the table have the same name, the same holds after any request to any
    route, whatever the request and whatever fails. *)
Theorem handlers_keep_names_unique E r req s :
  unique_names (table s) ->
  unique_names (table (call (handler E r req) s).2).
Proof.
  intros Hu. destruct r as [| | n | n | n]; cbn [handler].
  - destruct (create_flag_effect E req s)
      as [_ [[-> _] | (f & _ & -> & Hfresh & _)]]; [exact Hu |].
    apply unique_names_snoc; [exact Hu | apply fresh_not_in, Hfresh].
  - rewrite (proj1 (read_table E "" s)). exact Hu.
  - rewrite (proj2 (read_table E n s)). exact Hu.
  - destruct (update_flag_effect E req n s)
      as [[-> _] | (g & x & hit & _ & _ & -> & Hg)]; [exact Hu |].
    unfold unique_names. rewrite map_name_update; [exact Hu |].
    intros y. apply Hg.
  - destruct (delete_flag_effect E n s) as [-> | [_ ->]]; [exact Hu |].
    apply unique_names_filter, Hu.
Qed.

Lemma handlers_keep_names_unique_witness :
  unique_names
    (table (call (handler Ex.healthy POST_flags (Ex.req (Ex.obj [("name", JStr "beta")])))
                 Ex.one).2).
Proof.
  apply (handlers_keep_names_unique Ex.healthy POST_flags
           (Ex.req (Ex.obj [("name", JStr "beta")])) Ex.one).
  unfold unique_names. cbn. constructor; [apply not_elem_of_nil | constructor].
Defined.

(** X9.  No handler breaks the order of the timestamps: when every row
    has created_at at most updated_at, and updated_at at most the time of
    the request, the same holds after any request to any route, whatever
    the request and whatever fails. *)
Theorem handlers_keep_timestamps_ordered E r req s :
  timestamps_ok (clock s) (table s) ->
  timestamps_ok (clock s) (table (call (handler E r req) s).2).
Proof.
  unfold timestamps_ok. intros Hok. destruct r as [| | n | n | n]; cbn [handler].
  - destruct (create_flag_effect E req s)
      as [_ [[-> _] | (f & _ & -> & _ & Hc & Hup)]]; [exact Hok |].
    apply Forall_app. split; [exact Hok |].
    constructor; [lia | constructor].
  - rewrite (proj1 (read_table E "" s)). exact Hok.
  - rewrite (proj2 (read_table E n s)). exact Hok.
  - destruct (update_flag_effect E req n s)
      as [[-> _] | (g & x & hit & _ & _ & -> & Hg)]; [exact Hok |].
    clear x hit. induction Hok as [| x t Hx Hok IH]; cbn; constructor; [| exact IH].
    destruct (Sql.has_name n x); [| exact Hx].
    destruct (Hg x) as (_ & Hc & Hup). lia.
  - destruct (delete_flag_effect E n s) as [-> | [_ ->]]; [exact Hok |].
    rewrite Forall_forall in Hok. apply Forall_forall. intros x Hx.
    apply Hok. apply list_elem_of_filter in Hx. tauto.
Qed.

Lemma handlers_keep_timestamps_ordered_witness :
  timestamps_ok 10
    (table (call (handler Ex.healthy (PUT_flag "dark_mode")
                    (Ex.req (Ex.obj [("is_enabled", JBool true)]))) Ex.one).2).
Proof.
  apply (handlers_keep_timestamps_ordered Ex.healthy (PUT_flag "dark_mode")
           (Ex.req (Ex.obj [("is_enabled", JBool true)])) Ex.one).
  unfold timestamps_ok, Ex.one, Ex.dark_mode. cbn.
  constructor; [cbn; lia | constructor].
Defined.

(** ** Requests one after the other *)

Lemma has_name_refl f : Sql.has_name (name f) f = true.
Proof. unfold Sql.has_name. apply String.eqb_refl. Qed.

Lemma filter_snoc_fresh f (t : list flag) :
  existsb (Sql.has_name (name f)) t = false ->
  filter (λ r, Sql.has_name (name f) r = true) (t ++ [f])%list = [f].
Proof.
  intros Hfresh. rewrite filter_app, (filter_absent _ _ Hfresh).
  rewrite filter_cons, decide_True by apply has_name_refl. reflexivity.
Qed.

Lemma filter_map_update n (g : flag -> flag) (t : list flag) :
  (forall x, name (g x) = name x) ->
  filter (λ r, Sql.has_name n r = true)
         (map (λ r, if Sql.has_name n r then g r else r) t)
  = map g (filter (λ r, Sql.has_name n r = true) t).
Proof.
  intros Hg. induction t as [| x t IH]; [reflexivity |].
  cbn [map]. rewrite !filter_cons. destruct (Sql.has_name n x) eqn:Hx.
  - assert (Hgx : Sql.has_name n (g x) = true)
      by (unfold Sql.has_name in *; rewrite Hg; exact Hx).
    rewrite decide_True by exact Hgx. rewrite decide_True by reflexivity.
    cbn. rewrite IH. reflexivity.
  - rewrite decide_False by (rewrite Hx; discriminate).
    rewrite decide_False by discriminate. exact IH.
Qed.

(** The response of a get on a database that does not fail. *)
Lemma get_flag_healthy E n s :
  (forall c, db_fault E c = false) ->
  (call (get_flag E n) s).1
  = Returns (get_flag_response (filter (λ r, Sql.has_name n r = true) (table s))).
Proof.
  intros HE. assert (Hs := get_flag_summary E n s). unfold read_outcome in Hs.
  rewrite !HE in Hs. exact (proj1 Hs).
Qed.

(** X10.  Create then get: on a database that does not fail, when a
    create returns 201 with a row, a get of that row's name right after it
    returns 200 with the same row. *)
Theorem create_then_get E req s f :
  (forall c, db_fault E c = false) ->
  let c := call (create_flag E req) s in
  c.1 = Returns (JsonRow (Some f), 201) ->
  (call (get_flag E (name f)) c.2).1 = Returns (JsonRow (Some f), 200).
Proof.
  intros HE c Hc. rewrite (get_flag_healthy E _ _ HE).
  destruct (create_flag_effect E req s) as [_ [[_ Hno] | (f' & Hr & Ht & Hfresh & _)]].
  - exfalso. exact (Hno _ Hc).
  - fold c in Hr, Ht. rewrite Hr in Hc. injection Hc as ->.
    rewrite Ht, (filter_snoc_fresh _ _ Hfresh). reflexivity.
Qed.

Lemma create_then_get_witness :
  let f := Flag "beta" "" false 10 10 in
  let c := call (create_flag Ex.healthy (Ex.req (Ex.obj [("name", JStr "beta")])))
                Ex.one in
  (call (get_flag Ex.healthy "beta") c.2).1 = Returns (JsonRow (Some f), 200).
Proof.
  intros f c.
  exact (create_then_get Ex.healthy (Ex.req (Ex.obj [("name", JStr "beta")])) Ex.one f
           (λ _, eq_refl) eq_refl).
Defined.

(** X11.  Delete then get: on a database that does not fail, a get of a
    name right after a delete of that name returns 404, whether the delete
    found the flag or not. *)
Theorem delete_then_get E n s :
  (forall c, db_fault E c = false) ->
  let d := call (delete_flag E n) s in
  (call (get_flag E n) d.2).1 = Returns (JsonError "Flag não encontrada", 404).
Proof.
  intros HE d. rewrite (get_flag_healthy E _ _ HE).
  assert (Habs : existsb (Sql.has_name n) (table d.2) = false).
  { destruct (existsb (Sql.has_name n) (table s)) eqn:Hn.
    - destruct (delete_flag_found_run E n s HE Hn) as (_ & Ht & _).
      fold d in Ht. rewrite Ht. apply absent_after_delete.
    - destruct (delete_flag_not_found_run E n s HE Hn) as (_ & Ht & _).
      fold d in Ht. rewrite Ht. exact Hn. }
  rewrite (filter_absent _ _ Habs). reflexivity.
Qed.

Lemma delete_then_get_witness :
  (call (get_flag Ex.healthy "dark_mode")
        (call (delete_flag Ex.healthy "dark_mode") Ex.one).2).1
  = Returns (JsonError "Flag não encontrada", 404).
Proof.
  exact (delete_then_get Ex.healthy "dark_mode" Ex.one (λ _, eq_refl)).
Defined.

(** X12.  Update then get: on a database that does not fail, when an
    update returns 200 with a row, a get of the same name right after it
    returns 200 with the same row. *)
Theorem update_then_get E req n s p :
  (forall c, db_fault E c = false) ->
  let u := call (update_flag E req n) s in
  u.1 = Returns (p, 200) ->
  (call (get_flag E n) u.2).1 = Returns (p, 200).
Proof.
  intros HE u Hu. rewrite (get_flag_healthy E _ _ HE).
  destruct (update_flag_effect E req n s) as [[_ Hno] | (g & x & hit & Hr & Hf & Ht & Hg)].
  - exfalso. exact (Hno _ Hu).
  - fold u in Hr, Ht. rewrite Hr in Hu. injection Hu as <-.
    rewrite Ht, filter_map_update, Hf by (intros y; apply Hg). reflexivity.
Qed.

Lemma update_then_get_witness :
  let u := call (update_flag Ex.healthy (Ex.req (Ex.obj [("is_enabled", JBool true)]))
                             "dark_mode") Ex.one in
  (call (get_flag Ex.healthy "dark_mode") u.2).1
  = Returns (JsonRow (Some (Flag "dark_mode" "" true 7 10)), 200).
Proof.
  intros u.
  assert (H : u.1 = Returns (JsonRow (Some (Flag "dark_mode" "" true 7 10)), 200))
    by (vm_compute; reflexivity).
  exact (update_then_get Ex.healthy (Ex.req (Ex.obj [("is_enabled", JBool true)]))
           "dark_mode" Ex.one _ (λ _, eq_refl) H).
Defined.

(** ** What a well-typed update writes *)

Lemma run_update_sets db sets ps f n now (t : list flag) :
  Sql.bind_sets db sets ps now = inr (f, [JStr n]) ->
  Sql.run db (Sql.SUpdate sets) ps now t
  = inr (Sql.Result (map (λ r, if Sql.has_name n r then f r else r) t)
                    (map f (filter (λ r, Sql.has_name n r = true) t))
                    (Z.of_nat (length (filter (λ r, Sql.has_name n r = true) t)))).
Proof.
  intros Hb. cbn -[Sql.bind_sets]. rewrite Hb. reflexivity.
Qed.

(** X13.  On a database that does not fail, an update that supplies a
    string as description, a boolean as is_enabled, or both, for a name
    that is in the table, returns 200 with the first row of that name, in
    which the supplied fields have the supplied values, updated_at is the
    time of the statement, and the name, created_at and the field that is
    not supplied are as they were; the rows of that name are rewritten in
    this way in the table, and the other rows are left as they were. *)
Theorem update_flag_writes_supplied_fields E h (m : gmap string json) od oe n s x hit :
  (forall c, db_fault E c = false) ->
  m !! "description" = JStr <$> od ->
  m !! "is_enabled" = JBool <$> oe ->
  is_Some od \/ is_Some oe ->
  filter (λ r, Sql.has_name n r = true) (table s) = x :: hit ->
  let written r := Flag (name r) (default (description r) od)
                        (default (is_enabled r) oe) (created_at r) (clock s) in
  let u := call (update_flag E (Request h (JObj m)) n) s in
  u.1 = Returns (JsonRow (Some (written x)), 200)
  /\ table u.2 = map (λ r, if Sql.has_name n r then written r else r) (table s).
Proof.
  intros HE Hd He Hsome Hf written u.
  assert (Hs := update_flag_summary E h m n s). rewrite Hd, He in Hs.
  fold u in Hs. cbv zeta in Hs. unfold update_outcome in Hs.
  rewrite !HE in Hs.
  destruct od as [d |], oe as [e |]; cbn [fmap option_fmap option_map] in Hs.
  4: exfalso; destruct Hsome as [[y Hy] | [y Hy]]; discriminate Hy.
  all: specialize (Hs ltac:(first [left; eexists; reflexivity | right; eexists; reflexivity]));
    cbn [supplied fst snd app] in Hs;
    rewrite ?parse_update_d, ?parse_update_e, ?parse_update_de in Hs;
    cbn [option_map] in Hs;
    erewrite run_update_sets in Hs by reflexivity;
    cbn [Sql.rowcount Sql.returned Sql.rows_after] in Hs;
    rewrite Hf in Hs; cbn [length map head] in Hs.
  all: destruct (Z.of_nat (S (length hit)) =? 0) eqn:Hz;
    [apply Z.eqb_eq in Hz; lia |].
  all: destruct Hs as (Hr & Ht & _).
  all: split; [rewrite Hr; destruct x; reflexivity |].
  all: rewrite Ht; apply map_ext; intros r; destruct (Sql.has_name n r); [| reflexivity];
    destruct r; reflexivity.
Qed.

Lemma update_flag_writes_supplied_fields_witness :
  let m : gmap string json := list_to_map [("is_enabled", JBool true)] in
  let u := call (update_flag Ex.healthy (Request (Some "k") (JObj m)) "dark_mode") Ex.one in
  u.1 = Returns (JsonRow (Some (Flag "dark_mode" "" true 7 10)), 200)
  /\ table u.2 = [Flag "dark_mode" "" true 7 10].
Proof.
  intros m.
  assert (Hd : m !! "description" = JStr <$> None) by reflexivity.
  assert (He : m !! "is_enabled" = JBool <$> Some true) by reflexivity.
  assert (Hs : is_Some (@None string) \/ is_Some (Some true))
    by (right; exists true; reflexivity).
  exact (update_flag_writes_supplied_fields Ex.healthy (Some "k") m None (Some true)
           "dark_mode" Ex.one Ex.dark_mode [] (λ _, eq_refl) Hd He Hs eq_refl).
Defined.

(** ** Bodies that are no objects *)

(** X14.  A JSON body that is no object and still passes the handler's
    test makes the handler raise [TypeError] before its try block, with
    no call to the pool: in create, a number other than 0, [true], or an
    array or a string that contains [name]; in update, such a number or
    [true], or an array or a string that contains one of the two
    recognized fields. *)
Theorem non_object_body_raises_type_error E h (v : json) n s :
  (forall m, v <> JObj m) ->
  (truthy_scalar v = true \/ ~ lacks "name" v ->
   call (create_flag E (Request h v)) s = (Raises TypeError, s))
  /\ (truthy_scalar v = true \/ ~ lacks "description" v \/ ~ lacks "is_enabled" v ->
      call (update_flag E (Request h v) n) s = (Raises TypeError, s)).
Proof.
  intros Hv. destruct s. split; intros H.
  - destruct v as [| b | z | t | [| x l] | m]; cbn in H;
      unfold create_flag; unfold_m; cbn.
    + destruct H as [H | H]; [discriminate H | exfalso; exact (H I)].
    + destruct H as [-> | H]; [reflexivity | exfalso; exact (H I)].
    + destruct H as [-> | H]; [reflexivity | exfalso; exact (H I)].
    + destruct H as [H | H]; [discriminate H |].
      destruct (Py.substring_of "name" t) eqn:Hsub; [| exfalso; exact (H eq_refl)].
      destruct t; [discriminate Hsub | reflexivity].
    + destruct H as [H | H]; [discriminate H | exfalso; exact (H eq_refl)].
    + destruct H as [H | H]; [discriminate H |].
      destruct (Py.is_str "name" x || existsb (Py.is_str "name") l);
        [reflexivity | exfalso; exact (H eq_refl)].
    + exfalso. exact (Hv m eq_refl).
  - destruct v as [| b | z | t | [| x l] | m]; cbn in H;
      unfold update_flag, add_field; unfold_m; cbn.
    + destruct H as [H | [H | H]]; [discriminate H | exfalso; exact (H I) ..].
    + destruct H as [-> | [H | H]]; [reflexivity | exfalso; exact (H I) ..].
    + destruct H as [-> | [H | H]]; [reflexivity | exfalso; exact (H I) ..].
    + destruct H as [H | H]; [discriminate H |].
      destruct t as [| a t]; [exfalso; destruct H as [H | H]; exact (H eq_refl) |].
      cbn -[Py.substring_of].
      destruct (Py.substring_of "description" (String a t)); [reflexivity |].
      cbn -[Py.substring_of].
      destruct (Py.substring_of "is_enabled" (String a t)); [reflexivity |].
      exfalso. destruct H as [H | H]; exact (H eq_refl).
    + destruct H as [H | [H | H]]; [discriminate H | exfalso; exact (H eq_refl) ..].
    + destruct H as [H | H]; [discriminate H |].
      destruct (Py.is_str "description" x || existsb (Py.is_str "description") l);
        [reflexivity |]. cbn.
      destruct (Py.is_str "is_enabled" x || existsb (Py.is_str "is_enabled") l);
        [reflexivity |]. exfalso. destruct H as [H | H]; exact (H eq_refl).
    + exfalso. exact (Hv m eq_refl).
Qed.

Lemma non_object_body_raises_type_error_witness :
  call (create_flag Ex.healthy (Ex.req (JArr [JStr "name"]))) Ex.one
  = (Raises TypeError, Ex.one)
  /\ call (update_flag Ex.healthy (Ex.req (JStr "my description")) "dark_mode") Ex.one
     = (Raises TypeError, Ex.one).
Proof.
  split.
  - apply (proj1 (non_object_body_raises_type_error Ex.healthy (Some "k")
                    (JArr [JStr "name"]) "dark_mode" Ex.one
                    ltac:(intros m Hm; discriminate Hm))).
    right. intros H. discriminate H.
  - apply (proj2 (non_object_body_raises_type_error Ex.healthy (Some "k")
                    (JStr "my description") "dark_mode" Ex.one
                    ltac:(intros m Hm; discriminate Hm))).
    right. left. intros H. discriminate H.
Defined.
